(** * Restaurant API: access control, credentials and entity services

    A shallow embedding of the Go backend (handlers, services, repositories
    and the JWT middleware) and the properties of its authorization rules.

    Conventions.
    - Go's [uint] identifiers are [N]; no arithmetic is done on them apart
      from the auto-increment of a primary key.
    - Unix times are [Z] seconds; every operation that reads the clock takes
      the current time [now] as an argument.
    - A Go pair [(value, error)] is a [result]; the database handle behind the
      repositories is an explicit [DB] value threaded through every call that
      writes.
    - Collaborators that are not part of the repository (bcrypt, the JWT
      codec and HMAC, the request validator, JSON binding) are parameters. *)

From Stdlib Require Import String Ascii List ZArith NArith Bool Lia.
Import ListNotations.
Open Scope string_scope.

(** ** Errors and results *)

(** Go [error] values.  The two sentinels of package services are compared by
    identity with [errors.Is]; every other error is a fresh value carrying its
    message. *)
Inductive error : Type :=
| ErrUserNotFound
| ErrRestaurantNotFound
| errors_New (msg : string).

Definition Error (e : error) : string :=
  match e with
  | ErrUserNotFound => "user not found"
  | ErrRestaurantNotFound => "restaurant not found"
  | errors_New msg => msg
  end.

Definition is_ErrUserNotFound (e : error) : bool :=
  match e with ErrUserNotFound => true | _ => false end.

Definition is_ErrRestaurantNotFound (e : error) : bool :=
  match e with ErrRestaurantNotFound => true | _ => false end.

Inductive result (A : Type) : Type :=
| Ok (a : A)
| Err (e : error).
Arguments Ok {A} a.
Arguments Err {A} e.

(** ** package models *)

Module models.

Definition AdminRole : string := "admin".
Definition UserRole : string := "user".

Module User.
Record t : Type := mk
    { ID : N;
      Name : string;
      Email : string;
      Password : string;
      Role : string;
      CreatedAt : Z;
      UpdatedAt : Z;
      DeletedAt : option Z }.

Definition set_Name (v : string) (u : t) : t :=
    mk (ID u) v (Email u) (Password u) (Role u) (CreatedAt u) (UpdatedAt u) (DeletedAt u).
Definition set_Email (v : string) (u : t) : t :=
    mk (ID u) (Name u) v (Password u) (Role u) (CreatedAt u) (UpdatedAt u) (DeletedAt u).
Definition set_Password (v : string) (u : t) : t :=
    mk (ID u) (Name u) (Email u) v (Role u) (CreatedAt u) (UpdatedAt u) (DeletedAt u).
Definition set_Role (v : string) (u : t) : t :=
    mk (ID u) (Name u) (Email u) (Password u) v (CreatedAt u) (UpdatedAt u) (DeletedAt u).
Definition set_UpdatedAt (v : Z) (u : t) : t :=
    mk (ID u) (Name u) (Email u) (Password u) (Role u) (CreatedAt u) v (DeletedAt u).
Definition set_DeletedAt (v : option Z) (u : t) : t :=
    mk (ID u) (Name u) (Email u) (Password u) (Role u) (CreatedAt u) (UpdatedAt u) v.
End User.

Record UserResponse : Type :=
  { ur_ID : N; ur_Name : string; ur_Email : string; ur_Role : string;
    ur_CreatedAt : Z; ur_UpdatedAt : Z }.

Definition User_ToResponse (u : User.t) : UserResponse :=
  {| ur_ID := User.ID u; ur_Name := User.Name u; ur_Email := User.Email u;
     ur_Role := User.Role u; ur_CreatedAt := User.CreatedAt u;
     ur_UpdatedAt := User.UpdatedAt u |}.

Module RegisterUserRequest.
Record t : Type := mk { Name : string; Email : string; Password : string }.
End RegisterUserRequest.

Module LoginUserRequest.
Record t : Type := mk { Email : string; Password : string }.
End LoginUserRequest.

Module UpdateUserRequest.
Record t : Type := mk
    { Name : string; Email : string; Password : string; Role : string }.
End UpdateUserRequest.

Module Restaurant.
Record t : Type := mk
    { ID : N;
      Name : string;
      Description : string;
      Address : string;
      Phone : string;
      UserID : N;
      CreatedAt : Z;
      UpdatedAt : Z;
      DeletedAt : option Z }.

Definition set_Name (v : string) (r : t) : t :=
    mk (ID r) v (Description r) (Address r) (Phone r) (UserID r)
       (CreatedAt r) (UpdatedAt r) (DeletedAt r).
Definition set_Description (v : string) (r : t) : t :=
    mk (ID r) (Name r) v (Address r) (Phone r) (UserID r)
       (CreatedAt r) (UpdatedAt r) (DeletedAt r).
Definition set_Address (v : string) (r : t) : t :=
    mk (ID r) (Name r) (Description r) v (Phone r) (UserID r)
       (CreatedAt r) (UpdatedAt r) (DeletedAt r).
Definition set_Phone (v : string) (r : t) : t :=
    mk (ID r) (Name r) (Description r) (Address r) v (UserID r)
       (CreatedAt r) (UpdatedAt r) (DeletedAt r).
Definition set_UpdatedAt (v : Z) (r : t) : t :=
    mk (ID r) (Name r) (Description r) (Address r) (Phone r) (UserID r)
       (CreatedAt r) v (DeletedAt r).
Definition set_DeletedAt (v : option Z) (r : t) : t :=
    mk (ID r) (Name r) (Description r) (Address r) (Phone r) (UserID r)
       (CreatedAt r) (UpdatedAt r) v.
End Restaurant.

Record RestaurantResponse : Type :=
  { rr_ID : N; rr_Name : string; rr_Description : string; rr_Address : string;
    rr_Phone : string; rr_UserID : N; rr_CreatedAt : Z; rr_UpdatedAt : Z }.

Definition Restaurant_ToResponse (r : Restaurant.t) : RestaurantResponse :=
  {| rr_ID := Restaurant.ID r; rr_Name := Restaurant.Name r;
     rr_Description := Restaurant.Description r;
     rr_Address := Restaurant.Address r; rr_Phone := Restaurant.Phone r;
     rr_UserID := Restaurant.UserID r; rr_CreatedAt := Restaurant.CreatedAt r;
     rr_UpdatedAt := Restaurant.UpdatedAt r |}.

Module CreateRestaurantRequest.
Record t : Type := mk
    { Name : string; Description : string; Address : string; Phone : string }.
End CreateRestaurantRequest.

Module UpdateRestaurantRequest.
Record t : Type := mk
    { Name : string; Description : string; Address : string; Phone : string }.
End UpdateRestaurantRequest.

End models.

Import models.

(** ** The relational store

    Both tables keep every row ever inserted, in insertion order (ascending
    primary key): GORM deletes a model that has a [DeletedAt] column by
    stamping that column, and every query skips stamped rows. *)

Record DB : Type :=
  { users : list User.t;
    restaurants : list Restaurant.t }.

Definition with_users (us : list User.t) (db : DB) : DB :=
  {| users := us; restaurants := restaurants db |}.

Definition with_restaurants (rs : list Restaurant.t) (db : DB) : DB :=
  {| users := users db; restaurants := rs |}.

Module gorm.
Section Table.
Context {R : Type}.
Variable pk : R -> N.
Variable deleted_at : R -> option Z.

Definition live (r : R) : bool :=
    match deleted_at r with None => true | Some _ => false end.

  (** [db.Where(cond).First(&row)]: the first live row satisfying [cond]. *)
Definition First (cond : R -> bool) (rows : list R) : option R :=
    find (fun r => cond r && live r) rows.

  (** [db.Where(cond).Find(&rows)]. *)
Definition Find (cond : R -> bool) (rows : list R) : list R :=
    filter (fun r => cond r && live r) rows.

  (** The next value of the AUTO_INCREMENT primary key. *)
Definition next_id (rows : list R) : N :=
    N.succ (fold_right (fun r m => N.max (pk r) m) 0%N rows).

  (** [db.Save(&row)]: every column of the row with this primary key is
      written; a row with a new key is inserted. *)
Fixpoint Save (row : R) (rows : list R) : list R :=
    match rows with
    | [] => [row]
    | r :: rest => if N.eqb (pk r) (pk row) then row :: rest
                   else r :: Save row rest
    end.

  (** [db.Delete(&Model{}, id)] on a model with a soft-delete column. *)
Definition Delete (stamp : R -> R) (id : N) (rows : list R) : list R :=
    map (fun r => if N.eqb (pk r) id && live r then stamp r else r) rows.
End Table.
End gorm.

(** ** package repositories *)

Module repositories.

Module RestaurantRepository.

Definition id_is (id : N) (r : Restaurant.t) : bool :=
    N.eqb (Restaurant.ID r) id.

Definition Create (db : DB) (now : Z) (restaurant : Restaurant.t)
    : result Restaurant.t * DB :=
    let row :=
      Restaurant.mk (gorm.next_id Restaurant.ID (restaurants db))
        (Restaurant.Name restaurant) (Restaurant.Description restaurant)
        (Restaurant.Address restaurant) (Restaurant.Phone restaurant)
        (Restaurant.UserID restaurant) now now None in
    (Ok row, with_restaurants (restaurants db ++ [row]) db).

Definition GetByID (db : DB) (id : N) : result Restaurant.t :=
    match gorm.First Restaurant.DeletedAt (id_is id) (restaurants db) with
    | None => Err (errors_New "restaurant not found")
    | Some restaurant => Ok restaurant
    end.

Definition GetByUserID (db : DB) (userID : N) : result (list Restaurant.t) :=
    Ok (gorm.Find Restaurant.DeletedAt
          (fun r => N.eqb (Restaurant.UserID r) userID) (restaurants db)).

Definition Update (db : DB) (now : Z) (restaurant : Restaurant.t)
    : result Restaurant.t * DB :=
    let row := Restaurant.set_UpdatedAt now restaurant in
    (Ok row, with_restaurants (gorm.Save Restaurant.ID row (restaurants db)) db).

Definition Delete (db : DB) (now : Z) (id : N) : option error * DB :=
    (None,
     with_restaurants
       (gorm.Delete Restaurant.ID Restaurant.DeletedAt
          (Restaurant.set_DeletedAt (Some now)) id (restaurants db)) db).

Definition List (db : DB) : result (list Restaurant.t) :=
    Ok (gorm.Find Restaurant.DeletedAt (fun _ => true) (restaurants db)).

End RestaurantRepository.

Module UserRepository.

Definition id_is (id : N) (u : User.t) : bool := N.eqb (User.ID u) id.

Definition email_is (email : string) (u : User.t) : bool :=
    String.eqb (User.Email u) email.

  (** The unique index on [users.email] covers every row of the table, the
      soft-deleted ones included. *)
Definition email_taken (email : string) (self : N) (rows : list User.t) : bool :=
    existsb (fun u => email_is email u && negb (N.eqb (User.ID u) self)) rows.

Definition duplicate_entry : error :=
    errors_New "Error 1062: Duplicate entry for key 'users.email'".

  (** Modelled from the spec: UserRepository.GetByID (the users repository is
      not among the sources).  "Deleted via soft-delete marker"; it is the
      counterpart of RestaurantRepository.GetByID. *)
Definition GetByID (db : DB) (id : N) : result User.t :=
    match gorm.First User.DeletedAt (id_is id) (users db) with
    | None => Err (errors_New "user not found")
    | Some user => Ok user
    end.

  (** Modelled from the spec: UserRepository.GetByEmail (not among the
      sources): the live user with this email, "email (unique)". *)
Definition GetByEmail (db : DB) (email : string) : result User.t :=
    match gorm.First User.DeletedAt (email_is email) (users db) with
    | None => Err (errors_New "user not found")
    | Some user => Ok user
    end.

  (** Modelled from the spec: UserRepository.Create (not among the sources):
      "Email uniqueness enforced at write time"; otherwise the counterpart of
      RestaurantRepository.Create. *)
Definition Create (db : DB) (now : Z) (user : User.t) : result User.t * DB :=
    let id := gorm.next_id User.ID (users db) in
    if email_taken (User.Email user) id (users db) then (Err duplicate_entry, db)
    else
      let row :=
        User.mk id (User.Name user) (User.Email user) (User.Password user)
          (User.Role user) now now None in
      (Ok row, with_users (users db ++ [row]) db).

  (** Modelled from the spec: UserRepository.Update (not among the sources):
      "Email uniqueness enforced at write time"; otherwise the counterpart of
      RestaurantRepository.Update. *)
Definition Update (db : DB) (now : Z) (user : User.t) : result User.t * DB :=
    if email_taken (User.Email user) (User.ID user) (users db)
    then (Err duplicate_entry, db)
    else
      let row := User.set_UpdatedAt now user in
      (Ok row, with_users (gorm.Save User.ID row (users db)) db).

  (** Modelled from the spec: UserRepository.Delete (not among the sources):
      "Deleted via soft-delete marker". *)
Definition Delete (db : DB) (now : Z) (id : N) : option error * DB :=
    (None,
     with_users
       (gorm.Delete User.ID User.DeletedAt
          (User.set_DeletedAt (Some now)) id (users db)) db).

End UserRepository.

End repositories.

Import repositories.

(** ** package utils *)

Module utils.

  (** Payloads of a success response. *)
Inductive Data : Type :=
  | nil_data
  | user_data (u : UserResponse)
  | restaurant_data (r : RestaurantResponse)
  | restaurants_data (rs : list RestaurantResponse)
  | login_data (u : UserResponse) (token : string).

  (** Modelled from the spec: utils.Response and its two constructors
      (utils/response.go is not among the sources): "structured JSON with
      message/detail". *)
Inductive Response : Type :=
  | NewErrorResponse (message detail : string)
  | NewSuccessResponse (message : string) (data : Data).

End utils.

(** ** net/http status codes and the echo context *)

Module http.
Definition StatusOK : N := 200.
Definition StatusCreated : N := 201.
Definition StatusBadRequest : N := 400.
Definition StatusUnauthorized : N := 401.
Definition StatusForbidden : N := 403.
Definition StatusNotFound : N := 404.
Definition StatusConflict : N := 409.
Definition StatusInternalServerError : N := 500.
End http.

(** What reaches the client: the [c.JSON(code, body)] of a handler, or an
    [echo.NewHTTPError(code, message)] returned by a middleware. *)
Inductive HTTPResponse : Type :=
| JSON (code : N) (body : utils.Response)
| NewHTTPError (code : N) (message : string).

Definition code (r : HTTPResponse) : N :=
  match r with JSON c _ => c | NewHTTPError c _ => c end.

(** ** strconv.ParseUint(s, 10, 32) *)

Module strconv.

Definition digit (c : ascii) : option N :=
    let n := N_of_ascii c in
    if (48 <=? n)%N && (n <=? 57)%N then Some (n - 48)%N else None.

  (** Most significant digit first; [None] on a character that is not a
      decimal digit. *)
Fixpoint digits (s : string) (acc : N) : option N :=
    match s with
    | EmptyString => Some acc
    | String c rest =>
        match digit c with
        | None => None
        | Some d => digits rest (10 * acc + d)%N
        end
    end.

Definition maxUint32 : N := 4294967295.

Definition ParseUint32 (s : string) : result N :=
    match s with
    | EmptyString => Err (errors_New "strconv.ParseUint: invalid syntax")
    | _ =>
        match digits s 0%N with
        | None => Err (errors_New "strconv.ParseUint: invalid syntax")
        | Some n =>
            if (n <=? maxUint32)%N then Ok n
            else Err (errors_New "strconv.ParseUint: value out of range")
        end
    end.

End strconv.

(** ** JWT claims and tokens (package services, jwt-go) *)

Module jwt.

Record JWTClaims : Type := mkClaims
    { UserID : N;
      Email : string;
      Role : string;
      (* embedded jwt.StandardClaims: the three time claims *)
      ExpiresAt : Z;
      IssuedAt : Z;
      NotBefore : Z }.

Inductive SigningMethod : Type :=
  | SigningMethodHMAC (alg : string)      (* HS256, HS384, HS512 *)
  | SigningMethodOther (alg : string).    (* RS*, ES*, PS*, none *)

Definition SigningMethodHS256 : SigningMethod := SigningMethodHMAC "HS256".

  (** A decoded token: what [Parser.ParseUnverified] builds from the three
      segments of the compact serialisation. *)
Record Token : Type := mkToken
    { Raw : string;
      Method : SigningMethod;
      Claims : JWTClaims;
      Valid : bool }.

Definition set_Valid (v : bool) (t : Token) : Token :=
  mkToken (Raw t) (Method t) (Claims t) v.

  (** [StandardClaims.Valid]: a zero time claim is absent and passes. *)
Definition verifyExp (exp now : Z) : bool :=
    if (exp =? 0)%Z then true else (now <=? exp)%Z.
Definition verifyIat (iat now : Z) : bool :=
    if (iat =? 0)%Z then true else (iat <=? now)%Z.
Definition verifyNbf (nbf now : Z) : bool :=
    if (nbf =? 0)%Z then true else (nbf <=? now)%Z.

Definition Claims_Valid (c : JWTClaims) (now : Z) : option error :=
    if negb (verifyExp (ExpiresAt c) now) then Some (errors_New "token is expired")
    else if negb (verifyIat (IssuedAt c) now)
    then Some (errors_New "Token used before issued")
    else if negb (verifyNbf (NotBefore c) now)
    then Some (errors_New "token is not valid yet")
    else None.

Section Codec.
    (** The codec and the MAC of the library: decoding of the compact
        serialisation (nothing is decoded from a malformed string or one
        naming an unknown algorithm), verification of the signature segment
        of a token string under a key, and signing. *)
Variable ParseUnverified : string -> option Token.
Variable Verify : SigningMethod -> string -> string -> bool.

    (** [jwt.ParseWithClaims(tokenString, &JWTClaims{}, keyFunc)]: the token
        comes back with [nil] only when the key function accepts it, its
        claims are valid at [now] and its signature verifies. *)
Definition ParseWithClaims (now : Z) (tokenString : string)
        (keyFunc : Token -> result string) : result Token :=
      match ParseUnverified tokenString with
      | None => Err (errors_New "token contains an invalid number of segments")
      | Some token =>
          match keyFunc token with
          | Err e => Err e
          | Ok key =>
              match Claims_Valid (Claims token) now with
              | Some e => Err e
              | None =>
                  if Verify (Method token) (Raw token) key
                  then Ok (set_Valid true token)
                  else Err (errors_New "signature is invalid")
              end
          end
      end.
End Codec.

End jwt.

Import jwt.

Module echo.
(** The part of [echo.Context] that is read: the Authorization header, the
    path parameters, the outcome of binding the JSON body to the handler's
    request type, and the value stored under the key "user". *)
Record Context (B : Type) : Type := mkContext
  { Authorization : string;
    Param : string -> string;
    Bind : result B;
    user : option Token }.
Arguments Authorization {B} c.
Arguments Param {B} c name.
Arguments Bind {B} c.
Arguments user {B} c.
Arguments mkContext {B} Authorization Param Bind user.

(** [c.Set("user", token)]. *)
Definition Set_user {B} (c : Context B) (token : Token) : Context B :=
  mkContext (Authorization c) (Param c) (Bind c) (Some token).
End echo.

(** [validator.Struct] for a request type: [None] when every [validate] tag
    of the struct is satisfied. *)
Class Validator (A : Type) : Type :=
  validator_Struct : A -> option error.

(** ** package services *)

Module services.

Definition nonempty (s : string) : bool := negb (String.eqb s "").

Module UserService.
Section Service.
(** [utils.HashPassword] (not among the sources; a one-way salted hash that
    can fail). *)
Variable HashPassword : string -> result string.

Definition GetUserByID (db : DB) (id : N) : result User.t :=
  match UserRepository.GetByID db id with
  | Err _ => Err ErrUserNotFound
  | Ok user => Ok user
  end.

Definition UpdateUser (db : DB) (now : Z) (id : N)
    (request : UpdateUserRequest.t) : result User.t * DB :=
  (* Get existing user *)
  match UserRepository.GetByID db id with
  | Err _ => (Err ErrUserNotFound, db)
  | Ok user =>
  (* Update user fields if provided *)
  let user :=
    if nonempty (UpdateUserRequest.Name request)
    then User.set_Name (UpdateUserRequest.Name request) user else user in
  match
    (if nonempty (UpdateUserRequest.Email request)
        && negb (String.eqb (UpdateUserRequest.Email request) (User.Email user))
     then
       (* Check if email is already in use *)
       match UserRepository.GetByEmail db (UpdateUserRequest.Email request) with
       | Ok existingUser =>
           if negb (N.eqb (User.ID existingUser) id)
           then Err (errors_New "email already in use")
           else Ok (User.set_Email (UpdateUserRequest.Email request) user)
       | Err _ => Ok (User.set_Email (UpdateUserRequest.Email request) user)
       end
     else Ok user)
  with
  | Err e => (Err e, db)
  | Ok user =>
  match
    (if nonempty (UpdateUserRequest.Password request)
     then
       match HashPassword (UpdateUserRequest.Password request) with
       | Err e => Err e
       | Ok hashedPassword => Ok (User.set_Password hashedPassword user)
       end
     else Ok user)
  with
  | Err e => (Err e, db)
  | Ok user =>
  match
    (if nonempty (UpdateUserRequest.Role request)
     then
       (* Validate role *)
       if negb (String.eqb (UpdateUserRequest.Role request) "admin")
          && negb (String.eqb (UpdateUserRequest.Role request) "user")
       then Err (errors_New "invalid role")
       else Ok (User.set_Role (UpdateUserRequest.Role request) user)
     else Ok user)
  with
  | Err e => (Err e, db)
  | Ok user =>
  (* Save updated user *)
  UserRepository.Update db now user
  end end end end.

Definition DeleteUser (db : DB) (now : Z) (id : N) : option error * DB :=
  match UserRepository.GetByID db id with
  | Err _ => (Some ErrUserNotFound, db)
  | Ok _ => UserRepository.Delete db now id
  end.
End Service.
End UserService.

Module RestaurantService.

Definition GetRestaurantsByUserID (db : DB) (userID : N)
  : result (list Restaurant.t) :=
  match UserRepository.GetByID db userID with
  | Err _ => Err ErrUserNotFound
  | Ok _ => RestaurantRepository.GetByUserID db userID
  end.

Definition GetRestaurantByID (db : DB) (id userID : N) : result Restaurant.t :=
  match UserRepository.GetByID db userID with
  | Err _ => Err ErrUserNotFound
  | Ok _ =>
      match RestaurantRepository.GetByID db id with
      | Err _ => Err ErrRestaurantNotFound
      | Ok restaurant =>
          (* Check if restaurant belongs to the user *)
          if negb (N.eqb (Restaurant.UserID restaurant) userID)
          then Err ErrRestaurantNotFound
          else Ok restaurant
      end
  end.

Definition GetRestaurantByIDWithoutUserCheck (db : DB) (id : N)
  : result Restaurant.t :=
  match RestaurantRepository.GetByID db id with
  | Err _ => Err ErrRestaurantNotFound
  | Ok restaurant => Ok restaurant
  end.

Definition CreateRestaurant (db : DB) (now : Z)
    (request : CreateRestaurantRequest.t) (userID : N)
  : result Restaurant.t * DB :=
  match UserRepository.GetByID db userID with
  | Err _ => (Err ErrUserNotFound, db)
  | Ok _ =>
      RestaurantRepository.Create db now
        (Restaurant.mk 0
           (CreateRestaurantRequest.Name request)
           (CreateRestaurantRequest.Description request)
           (CreateRestaurantRequest.Address request)
           (CreateRestaurantRequest.Phone request)
           userID 0 0 None)
  end.

Definition UpdateRestaurant (db : DB) (now : Z) (id : N)
    (request : UpdateRestaurantRequest.t) : result Restaurant.t * DB :=
  (* Get existing restaurant *)
  match RestaurantRepository.GetByID db id with
  | Err _ => (Err ErrRestaurantNotFound, db)
  | Ok restaurant =>
      (* Update restaurant fields if provided *)
      let restaurant :=
        if nonempty (UpdateRestaurantRequest.Name request)
        then Restaurant.set_Name (UpdateRestaurantRequest.Name request) restaurant
        else restaurant in
      let restaurant :=
        if nonempty (UpdateRestaurantRequest.Description request)
        then Restaurant.set_Description
               (UpdateRestaurantRequest.Description request) restaurant
        else restaurant in
      let restaurant :=
        if nonempty (UpdateRestaurantRequest.Address request)
        then Restaurant.set_Address
               (UpdateRestaurantRequest.Address request) restaurant
        else restaurant in
      let restaurant :=
        if nonempty (UpdateRestaurantRequest.Phone request)
        then Restaurant.set_Phone (UpdateRestaurantRequest.Phone request) restaurant
        else restaurant in
      (* Save updated restaurant *)
      RestaurantRepository.Update db now restaurant
  end.

Definition DeleteRestaurant (db : DB) (now : Z) (id : N) : option error * DB :=
  match RestaurantRepository.GetByID db id with
  | Err _ => (Some ErrRestaurantNotFound, db)
  | Ok _ => RestaurantRepository.Delete db now id
  end.

End RestaurantService.

Module AuthService.
Section Service.
(** [utils.HashPassword] and [utils.CheckPasswordHash] (not among the
    sources), and the codec of the JWT library. *)
Variable HashPassword : string -> result string.
Variable CheckPasswordHash : string -> string -> bool.
Variable ParseUnverified : string -> option Token.
Variable Verify : SigningMethod -> string -> string -> bool.
Variable SignedString : SigningMethod -> JWTClaims -> string -> result string.

(** The [jwtSecret] field of the service. *)
Variable jwtSecret : string.

Definition Register (db : DB) (now : Z) (request : RegisterUserRequest.t)
  : result User.t * DB :=
  (* Check if user with email already exists *)
  match UserRepository.GetByEmail db (RegisterUserRequest.Email request) with
  | Ok _ => (Err (errors_New "user with this email already exists"), db)
  | Err _ =>
      (* Hash password *)
      match HashPassword (RegisterUserRequest.Password request) with
      | Err err => (Err err, db)
      | Ok hashedPassword =>
          (* Create user *)
          UserRepository.Create db now
            (User.mk 0
               (RegisterUserRequest.Name request)
               (RegisterUserRequest.Email request)
               hashedPassword
               "user" (* Default role is user *)
               0 0 None)
      end
  end.

Definition generateToken (now : Z) (user : User.t) : result string :=
  (* Create claims *)
  let claims :=
    mkClaims (User.ID user) (User.Email user) (User.Role user)
      (now + 3600 * 24) (* Token expires in 24 hours *)
      0 0 in
  (* Create and sign token *)
  match SignedString SigningMethodHS256 claims jwtSecret with
  | Err err => Err err
  | Ok tokenString => Ok tokenString
  end.

Definition Login (db : DB) (now : Z) (request : LoginUserRequest.t)
  : result (User.t * string) :=
  (* Get user by email *)
  match UserRepository.GetByEmail db (LoginUserRequest.Email request) with
  | Err _ => Err (errors_New "invalid email or password")
  | Ok user =>
      (* Verify password *)
      if negb (CheckPasswordHash (LoginUserRequest.Password request)
                 (User.Password user))
      then Err (errors_New "invalid email or password")
      else
        (* Generate JWT token *)
        match generateToken now user with
        | Err err => Err err
        | Ok token => Ok (user, token)
        end
  end.

(** The type assertion on [c.Get("user")] panics on a context that holds no
    token: [None].  Otherwise the returned error is always nil. *)
Definition ExtractTokenClaims {B} (c : echo.Context B)
  : option (result JWTClaims) :=
  match echo.user c with
  | None => None
  | Some user => Some (Ok (Claims user))
  end.

(** The key function shared by [ValidateToken] and the JWT middleware. *)
Definition keyFunc (secret : string) (token : Token) : result string :=
  (* Validate signing method *)
  match Method token with
  | SigningMethodHMAC _ => Ok secret
  | SigningMethodOther alg =>
      Err (errors_New ("unexpected signing method: " ++ alg))
  end.

Definition ValidateToken (now : Z) (tokenString : string) : result JWTClaims :=
  (* Parse token *)
  match jwt.ParseWithClaims ParseUnverified Verify now tokenString
          (keyFunc jwtSecret) with
  | Err err => Err err
  | Ok token =>
      (* Extract claims *)
      if Valid token then Ok (Claims token)
      else Err (errors_New "invalid token")
  end.
End Service.
End AuthService.

End services.

Import services.

(** ** package middleware *)

Module middleware.
Section JWT.
Variable ParseUnverified : string -> option Token.
Variable Verify : SigningMethod -> string -> string -> bool.

Definition TrimPrefix (s p : string) : string :=
  if String.prefix p s
  then String.substring (String.length p) (String.length s - String.length p) s
  else s.

(** A handler, with the clock it reads and the database it works on. *)
Definition HandlerFunc (B : Type) : Type :=
  Z -> echo.Context B -> DB -> HTTPResponse * DB.

Definition JWT (jwtSecret : string) {B} (next : HandlerFunc B) : HandlerFunc B :=
  fun now c db =>
  (* Get authorization header *)
  let authHeader := echo.Authorization c in
  if String.eqb authHeader ""
  then (NewHTTPError http.StatusUnauthorized "Authorization header is required", db)
  else
  (* Check if the header has the Bearer prefix *)
  if negb (String.prefix "Bearer " authHeader)
  then (NewHTTPError http.StatusUnauthorized
          "Invalid authorization format, expected 'Bearer TOKEN'", db)
  else
  (* Extract token *)
  let tokenString := TrimPrefix authHeader "Bearer " in
  (* Parse and validate token *)
  match jwt.ParseWithClaims ParseUnverified Verify now tokenString
          (AuthService.keyFunc jwtSecret) with
  | Err err =>
      (NewHTTPError http.StatusUnauthorized
         ("Invalid or expired token: " ++ Error err), db)
  | Ok token =>
      (* Set parsed token in context *)
      next now (echo.Set_user c token) db
  end.

(** [middleware.Recover] (main.go): a panic in a handler is answered with
    500. *)
Definition Recover : HTTPResponse :=
  NewHTTPError http.StatusInternalServerError "Internal Server Error".
End JWT.
End middleware.

(** ** package handlers *)

Module handlers.
Import utils http middleware.

Section Handlers.
Variable HashPassword : string -> result string.
Variable CheckPasswordHash : string -> string -> bool.
Variable SignedString : SigningMethod -> JWTClaims -> string -> result string.
Variable jwtSecret : string.
Context {VRegister : Validator RegisterUserRequest.t}.
Context {VLogin : Validator LoginUserRequest.t}.
Context {VUpdateUser : Validator UpdateUserRequest.t}.
Context {VCreateRestaurant : Validator CreateRestaurantRequest.t}.
Context {VUpdateRestaurant : Validator UpdateRestaurantRequest.t}.

Definition permission_denied (detail : string) : HTTPResponse :=
  JSON StatusForbidden (NewErrorResponse "Permission denied" detail).

Definition is_admin (claims : JWTClaims) : bool :=
  String.eqb (Role claims) AdminRole.

(** *** AuthHandler *)

Definition AuthHandler_Register : HandlerFunc RegisterUserRequest.t :=
  fun now c db =>
  match echo.Bind c with
  | Err err =>
      (JSON StatusBadRequest (NewErrorResponse "Invalid request body" (Error err)), db)
  | Ok request =>
  match validator_Struct request with
  | Some err =>
      (JSON StatusBadRequest (NewErrorResponse "Validation failed" (Error err)), db)
  | None =>
  match AuthService.Register HashPassword db now request with
  | (Err err, db) =>
      (JSON StatusInternalServerError
         (NewErrorResponse "Failed to register user" (Error err)), db)
  | (Ok user, db) =>
      (JSON StatusCreated
         (NewSuccessResponse "User registered successfully"
            (user_data (User_ToResponse user))), db)
  end end end.

Definition AuthHandler_Login : HandlerFunc LoginUserRequest.t :=
  fun now c db =>
  match echo.Bind c with
  | Err err =>
      (JSON StatusBadRequest (NewErrorResponse "Invalid request body" (Error err)), db)
  | Ok request =>
  match validator_Struct request with
  | Some err =>
      (JSON StatusBadRequest (NewErrorResponse "Validation failed" (Error err)), db)
  | None =>
  match AuthService.Login CheckPasswordHash SignedString jwtSecret db now request with
  | Err err =>
      (JSON StatusUnauthorized
         (NewErrorResponse "Authentication failed" (Error err)), db)
  | Ok (user, token) =>
      (JSON StatusOK
         (NewSuccessResponse "Login successful"
            (login_data (User_ToResponse user) token)), db)
  end end end.

(** *** UserHandler *)

Definition UserHandler_GetUser {B} : HandlerFunc B :=
  fun now c db =>
  match strconv.ParseUint32 (echo.Param c "id") with
  | Err err =>
      (JSON StatusBadRequest (NewErrorResponse "Invalid user ID" (Error err)), db)
  | Ok id =>
  (* Check permissions *)
  match AuthService.ExtractTokenClaims c with
  | None => (Recover, db)
  | Some (Err err) =>
      (JSON StatusUnauthorized (NewErrorResponse "Invalid token" (Error err)), db)
  | Some (Ok claims) =>
  (* Only admins can access other users' data *)
  if negb (N.eqb (UserID claims) id) && negb (is_admin claims)
  then (permission_denied "You don't have permission to access this resource", db)
  else
  match UserService.GetUserByID db id with
  | Err err =>
      if is_ErrUserNotFound err
      then (JSON StatusNotFound
              (NewErrorResponse "User not found" "The requested user does not exist"), db)
      else (JSON StatusInternalServerError
              (NewErrorResponse "Failed to get user" (Error err)), db)
  | Ok user =>
      (JSON StatusOK
         (NewSuccessResponse "User retrieved successfully"
            (user_data (User_ToResponse user))), db)
  end end end.

Definition UserHandler_UpdateUser : HandlerFunc UpdateUserRequest.t :=
  fun now c db =>
  match strconv.ParseUint32 (echo.Param c "id") with
  | Err err =>
      (JSON StatusBadRequest (NewErrorResponse "Invalid user ID" (Error err)), db)
  | Ok id =>
  match echo.Bind c with
  | Err err =>
      (JSON StatusBadRequest (NewErrorResponse "Invalid request body" (Error err)), db)
  | Ok request =>
  match validator_Struct request with
  | Some err =>
      (JSON StatusBadRequest (NewErrorResponse "Validation failed" (Error err)), db)
  | None =>
  (* Check permissions *)
  match AuthService.ExtractTokenClaims c with
  | None => (Recover, db)
  | Some (Err err) =>
      (JSON StatusUnauthorized (NewErrorResponse "Invalid token" (Error err)), db)
  | Some (Ok claims) =>
  (* Check if trying to update role while not being an admin *)
  if nonempty (UpdateUserRequest.Role request) && negb (is_admin claims)
  then (permission_denied "Only admins can change user roles", db)
  else
  (* Only admins can update other users' data *)
  if negb (N.eqb (UserID claims) id) && negb (is_admin claims)
  then (permission_denied "You don't have permission to update this user", db)
  else
  match UserService.UpdateUser HashPassword db now id request with
  | (Err err, db) =>
      if is_ErrUserNotFound err
      then (JSON StatusNotFound
              (NewErrorResponse "User not found" "The requested user does not exist"), db)
      else (JSON StatusInternalServerError
              (NewErrorResponse "Failed to update user" (Error err)), db)
  | (Ok user, db) =>
      (JSON StatusOK
         (NewSuccessResponse "User updated successfully"
            (user_data (User_ToResponse user))), db)
  end end end end end.

Definition UserHandler_DeleteUser {B} : HandlerFunc B :=
  fun now c db =>
  match strconv.ParseUint32 (echo.Param c "id") with
  | Err err =>
      (JSON StatusBadRequest (NewErrorResponse "Invalid user ID" (Error err)), db)
  | Ok id =>
  (* Check permissions *)
  match AuthService.ExtractTokenClaims c with
  | None => (Recover, db)
  | Some (Err err) =>
      (JSON StatusUnauthorized (NewErrorResponse "Invalid token" (Error err)), db)
  | Some (Ok claims) =>
  (* Only admins can delete other users *)
  if negb (N.eqb (UserID claims) id) && negb (is_admin claims)
  then (permission_denied "You don't have permission to delete this user", db)
  else
  match UserService.DeleteUser db now id with
  | (Some err, db) =>
      if is_ErrUserNotFound err
      then (JSON StatusNotFound
              (NewErrorResponse "User not found" "The requested user does not exist"), db)
      else (JSON StatusInternalServerError
              (NewErrorResponse "Failed to delete user" (Error err)), db)
  | (None, db) =>
      (JSON StatusOK (NewSuccessResponse "User deleted successfully" nil_data), db)
  end end end.

(** *** RestaurantHandler *)

Definition restaurant_not_found : HTTPResponse :=
  JSON StatusNotFound
    (NewErrorResponse "Restaurant not found" "The requested restaurant does not exist").

Definition RestaurantHandler_GetUserRestaurants {B} : HandlerFunc B :=
  fun now c db =>
  match strconv.ParseUint32 (echo.Param c "userId") with
  | Err err =>
      (JSON StatusBadRequest (NewErrorResponse "Invalid user ID" (Error err)), db)
  | Ok userID =>
  (* Check permissions *)
  match AuthService.ExtractTokenClaims c with
  | None => (Recover, db)
  | Some (Err err) =>
      (JSON StatusUnauthorized (NewErrorResponse "Invalid token" (Error err)), db)
  | Some (Ok claims) =>
  (* Users can only view their own restaurants unless they are admins *)
  if negb (N.eqb (UserID claims) userID) && negb (String.eqb (Role claims) "admin")
  then (permission_denied "You don't have permission to access this resource", db)
  else
  match RestaurantService.GetRestaurantsByUserID db userID with
  | Err err =>
      if is_ErrUserNotFound err
      then (JSON StatusNotFound
              (NewErrorResponse "User not found" "The requested user does not exist"), db)
      else (JSON StatusInternalServerError
              (NewErrorResponse "Failed to get restaurants" (Error err)), db)
  | Ok restaurants =>
      (JSON StatusOK
         (NewSuccessResponse "Restaurants retrieved successfully"
            (restaurants_data (map Restaurant_ToResponse restaurants))), db)
  end end end.

Definition RestaurantHandler_GetUserRestaurant {B} : HandlerFunc B :=
  fun now c db =>
  match strconv.ParseUint32 (echo.Param c "userId") with
  | Err err =>
      (JSON StatusBadRequest (NewErrorResponse "Invalid user ID" (Error err)), db)
  | Ok userID =>
  match strconv.ParseUint32 (echo.Param c "id") with
  | Err err =>
      (JSON StatusBadRequest (NewErrorResponse "Invalid restaurant ID" (Error err)), db)
  | Ok restaurantID =>
  (* Check permissions *)
  match AuthService.ExtractTokenClaims c with
  | None => (Recover, db)
  | Some (Err err) =>
      (JSON StatusUnauthorized (NewErrorResponse "Invalid token" (Error err)), db)
  | Some (Ok claims) =>
  (* Users can only view their own restaurants unless they are admins *)
  if negb (N.eqb (UserID claims) userID) && negb (String.eqb (Role claims) "admin")
  then (permission_denied "You don't have permission to access this resource", db)
  else
  match RestaurantService.GetRestaurantByID db restaurantID userID with
  | Err err =>
      if is_ErrRestaurantNotFound err then (restaurant_not_found, db)
      else if is_ErrUserNotFound err
      then (JSON StatusNotFound
              (NewErrorResponse "User not found" "The requested user does not exist"), db)
      else (JSON StatusInternalServerError
              (NewErrorResponse "Failed to get restaurant" (Error err)), db)
  | Ok restaurant =>
      (JSON StatusOK
         (NewSuccessResponse "Restaurant retrieved successfully"
            (restaurant_data (Restaurant_ToResponse restaurant))), db)
  end end end end.

Definition RestaurantHandler_CreateRestaurant
  : HandlerFunc CreateRestaurantRequest.t :=
  fun now c db =>
  match echo.Bind c with
  | Err err =>
      (JSON StatusBadRequest (NewErrorResponse "Invalid request body" (Error err)), db)
  | Ok request =>
  match validator_Struct request with
  | Some err =>
      (JSON StatusBadRequest (NewErrorResponse "Validation failed" (Error err)), db)
  | None =>
  (* Get user ID from token *)
  match AuthService.ExtractTokenClaims c with
  | None => (Recover, db)
  | Some (Err err) =>
      (JSON StatusUnauthorized (NewErrorResponse "Invalid token" (Error err)), db)
  | Some (Ok claims) =>
  match RestaurantService.CreateRestaurant db now request (UserID claims) with
  | (Err err, db) =>
      if is_ErrUserNotFound err
      then (JSON StatusNotFound
              (NewErrorResponse "User not found" "The user does not exist"), db)
      else (JSON StatusInternalServerError
              (NewErrorResponse "Failed to create restaurant" (Error err)), db)
  | (Ok restaurant, db) =>
      (JSON StatusCreated
         (NewSuccessResponse "Restaurant created successfully"
            (restaurant_data (Restaurant_ToResponse restaurant))), db)
  end end end end.

Definition RestaurantHandler_UpdateRestaurant
  : HandlerFunc UpdateRestaurantRequest.t :=
  fun now c db =>
  match strconv.ParseUint32 (echo.Param c "id") with
  | Err err =>
      (JSON StatusBadRequest (NewErrorResponse "Invalid restaurant ID" (Error err)), db)
  | Ok id =>
  match echo.Bind c with
  | Err err =>
      (JSON StatusBadRequest (NewErrorResponse "Invalid request body" (Error err)), db)
  | Ok request =>
  match validator_Struct request with
  | Some err =>
      (JSON StatusBadRequest (NewErrorResponse "Validation failed" (Error err)), db)
  | None =>
  (* Check permissions *)
  match AuthService.ExtractTokenClaims c with
  | None => (Recover, db)
  | Some (Err err) =>
      (JSON StatusUnauthorized (NewErrorResponse "Invalid token" (Error err)), db)
  | Some (Ok claims) =>
  (* Get restaurant to check ownership *)
  match RestaurantService.GetRestaurantByIDWithoutUserCheck db id with
  | Err err =>
      if is_ErrRestaurantNotFound err then (restaurant_not_found, db)
      else (JSON StatusInternalServerError
              (NewErrorResponse "Failed to get restaurant" (Error err)), db)
  | Ok restaurant =>
  (* Users can only update their own restaurants unless they are admins *)
  if negb (N.eqb (Restaurant.UserID restaurant) (UserID claims))
     && negb (String.eqb (Role claims) "admin")
  then (permission_denied "You don't have permission to update this restaurant", db)
  else
  match RestaurantService.UpdateRestaurant db now id request with
  | (Err err, db) =>
      if is_ErrRestaurantNotFound err then (restaurant_not_found, db)
      else (JSON StatusInternalServerError
              (NewErrorResponse "Failed to update restaurant" (Error err)), db)
  | (Ok updatedRestaurant, db) =>
      (JSON StatusOK
         (NewSuccessResponse "Restaurant updated successfully"
            (restaurant_data (Restaurant_ToResponse updatedRestaurant))), db)
  end end end end end end.

Definition RestaurantHandler_DeleteRestaurant {B} : HandlerFunc B :=
  fun now c db =>
  match strconv.ParseUint32 (echo.Param c "id") with
  | Err err =>
      (JSON StatusBadRequest (NewErrorResponse "Invalid restaurant ID" (Error err)), db)
  | Ok id =>
  (* Check permissions *)
  match AuthService.ExtractTokenClaims c with
  | None => (Recover, db)
  | Some (Err err) =>
      (JSON StatusUnauthorized (NewErrorResponse "Invalid token" (Error err)), db)
  | Some (Ok claims) =>
  (* Get restaurant to check ownership *)
  match RestaurantService.GetRestaurantByIDWithoutUserCheck db id with
  | Err err =>
      if is_ErrRestaurantNotFound err then (restaurant_not_found, db)
      else (JSON StatusInternalServerError
              (NewErrorResponse "Failed to get restaurant" (Error err)), db)
  | Ok restaurant =>
  (* Users can only delete their own restaurants unless they are admins *)
  if negb (N.eqb (Restaurant.UserID restaurant) (UserID claims))
     && negb (String.eqb (Role claims) "admin")
  then (permission_denied "You don't have permission to delete this restaurant", db)
  else
  match RestaurantService.DeleteRestaurant db now id with
  | (Some err, db) =>
      if is_ErrRestaurantNotFound err then (restaurant_not_found, db)
      else (JSON StatusInternalServerError
              (NewErrorResponse "Failed to delete restaurant" (Error err)), db)
  | (None, db) =>
      (JSON StatusOK
         (NewSuccessResponse "Restaurant deleted successfully" nil_data), db)
  end end end end.

End Handlers.
End handlers.

Import handlers.

(** ** A concrete deployment

    Collaborators chosen so that everything evaluates: a transparent
    stand-in for the password hash, validators that accept every request,
    and a token codec that knows a handful of token strings. *)

Module Scenario.
Import utils http middleware.

Definition HashPassword (password : string) : result string :=
  Ok ("hash:" ++ password).

Definition CheckPasswordHash (password hash : string) : bool :=
  String.eqb ("hash:" ++ password) hash.

Definition accept {A : Type} : Validator A := fun _ => None.

(** The [validate] tag of [UpdateUserRequest.Role]: empty, or one of the two
    role names. *)
Definition role_oneof : Validator UpdateUserRequest.t :=
  fun request =>
    let role := UpdateUserRequest.Role request in
    if String.eqb role "" || String.eqb role "admin" || String.eqb role "user"
    then None
    else Some (errors_New "Field validation for 'Role' failed on the 'oneof' tag").

Definition secret : string := "your_secret_key".

Definition alice : User.t :=
  User.mk 1 "Alice" "alice@example.com" "hash:wonderland" "user" 100 100 None.
Definition bob : User.t :=
  User.mk 2 "Bob" "bob@example.com" "hash:builder99" "user" 110 110 None.
Definition root : User.t :=
  User.mk 3 "Root" "root@example.com" "hash:toor-toor" "admin" 120 120 None.

Definition diner : Restaurant.t :=
  Restaurant.mk 1 "Diner" "All day breakfast" "1 Main St" "555-0100" 1 130 130 None.
Definition bistro : Restaurant.t :=
  Restaurant.mk 2 "Bistro" "" "2 Side St" "" 2 140 140 None.

Definition db0 : DB := {| users := [alice; bob; root]; restaurants := [diner; bistro] |}.

Definition empty_db : DB := {| users := []; restaurants := [] |}.

Definition claims_of (u : User.t) (exp : Z) : JWTClaims :=
  mkClaims (User.ID u) (User.Email u) (User.Role u) exp 0 0.

(** Token strings known to the codec.  "forged" carries Root's claims under
    a signature the secret does not produce; "stale" expired at 1000;
    "rsa" names a signing method that is not an HMAC. *)
Definition ParseUnverified (s : string) : option Token :=
  if String.eqb s "alice" then
    Some (mkToken s SigningMethodHS256 (claims_of alice 90000) false)
  else if String.eqb s "bob" then
    Some (mkToken s SigningMethodHS256 (claims_of bob 90000) false)
  else if String.eqb s "root" then
    Some (mkToken s SigningMethodHS256 (claims_of root 90000) false)
  else if String.eqb s "stale" then
    Some (mkToken s SigningMethodHS256 (claims_of alice 1000) false)
  else if String.eqb s "forged" then
    Some (mkToken s SigningMethodHS256 (claims_of root 90000) false)
  else if String.eqb s "rsa" then
    Some (mkToken s (SigningMethodOther "RS256") (claims_of root 90000) false)
  else None.

Definition Verify (m : SigningMethod) (raw key : string) : bool :=
  String.eqb key secret && negb (String.eqb raw "forged").

Definition SignedString (m : SigningMethod) (c : JWTClaims) (key : string)
  : result string :=
  Ok (Email c ++ "/" ++ Role c ++ "/" ++ key).

(** The token a principal presents once the middleware has accepted it. *)
Definition token_of (u : User.t) : Token :=
  mkToken (User.Name u) SigningMethodHS256 (claims_of u 90000) true.

Definition param (name value : string) : string -> string :=
  fun n => if String.eqb n name then value else "".

Definition params (userId id : string) : string -> string :=
  fun n => if String.eqb n "userId" then userId
           else if String.eqb n "id" then id else "".

(** An authenticated request by [u] on the path parameter [id]. *)
Definition request_by {B} (u : User.t) (id : string) (b : result B)
  : echo.Context B :=
  echo.mkContext "" (param "id" id) b (Some (token_of u)).

Definition no_body : result unit := Err (errors_New "EOF").

(** Requests used below. *)
Definition new_description : UpdateRestaurantRequest.t :=
  UpdateRestaurantRequest.mk "" "Breakfast until noon" "" "".

Definition diner_updated : Restaurant.t :=
  Restaurant.mk 1 "Diner" "Breakfast until noon" "1 Main St" "555-0100" 1
    130 5000 None.

Definition new_name : UpdateUserRequest.t :=
  UpdateUserRequest.mk "Alice L." "" "" "".

Definition alice_updated : User.t :=
  User.mk 1 "Alice L." "alice@example.com" "hash:wonderland" "user" 100 5000 None.

Definition make_me_admin : UpdateUserRequest.t :=
  UpdateUserRequest.mk "" "" "" "admin".

Definition carol : RegisterUserRequest.t :=
  RegisterUserRequest.mk "Carol" "carol@example.com" "password1".

Definition anonymous {B} (b : result B) : echo.Context B :=
  echo.mkContext "" (fun _ => "") b None.

Definition bearer (tokenString : string) : echo.Context unit :=
  echo.mkContext ("Bearer " ++ tokenString) (param "id" "1") no_body None.

End Scenario.

(** ** The access policy, as the specification words it

    A principal may act on a resource when it owns it or is an admin. *)

Definition may_act (principal : JWTClaims) (owner_id : N) : Prop :=
  UserID principal = owner_id \/ Role principal = "admin".

(** Partial-update semantics, as the specification words it: "only
    non-empty fields overwrite". *)
Definition overwrite (supplied previous : string) : string :=
  if nonempty supplied then supplied else previous.

(** ** Two sentences of the specification, as they are worded

    "Unknown resource yields NotFound; checked after existence lookup", read
    on the deletion of a user: whoever asks, an id that names no user is
    answered NotFound. *)

Definition unknown_user_is_always_not_found : Prop :=
  forall (now : Z) (B : Type) (c : echo.Context B) (db : DB) (id : N)
         (token : Token) (e : error),
    strconv.ParseUint32 (echo.Param c "id") = Ok id ->
    echo.user c = Some token ->
    UserRepository.GetByID db id = Err e ->
    code (fst (UserHandler_DeleteUser now c db)) = http.StatusNotFound.

(** "Registering twice with the same email fails with conflict": when a
    registration succeeded, a second one with the same email, made on the
    database the first one left, is answered 409. *)

Definition second_registration_is_a_conflict
    (HashPassword : string -> result string)
    (V : Validator RegisterUserRequest.t) : Prop :=
  forall (now now' : Z) (c c' : echo.Context RegisterUserRequest.t)
         (request request' : RegisterUserRequest.t) (db : DB),
    echo.Bind c = Ok request -> validator_Struct request = None ->
    echo.Bind c' = Ok request' -> validator_Struct request' = None ->
    RegisterUserRequest.Email request = RegisterUserRequest.Email request' ->
    code (fst (AuthHandler_Register HashPassword now c db)) = http.StatusCreated ->
    code (fst (AuthHandler_Register HashPassword now' c'
                 (snd (AuthHandler_Register HashPassword now c db))))
    = http.StatusConflict.

(** ** package utils: token.go *)

Module utils_token.

(** [strings.SplitN(s, " ", 2)]: the string itself when it holds no space,
    otherwise what precedes and what follows its first space. *)
Fixpoint SplitN2 (s : string) : list string :=
  match s with
  | EmptyString => [EmptyString]
  | String c rest =>
      if Ascii.eqb c " " then [EmptyString; rest]
      else match SplitN2 rest with
           | [] => []
           | a :: parts => String c a :: parts
           end
  end.

Definition ExtractTokenFromHeader {B} (c : echo.Context B) : result string :=
  let auth := echo.Authorization c in
  if String.eqb auth ""
  then Err (errors_New "authorization header is required")
  else
    let parts := SplitN2 auth in
    if negb (Nat.eqb (List.length parts) 2
             && String.eqb (nth 0 parts "") "Bearer")
    then Err (errors_New "invalid authorization header format")
    else Ok (nth 1 parts "").

End utils_token.

(** ** Vocabulary of the properties beyond the claims *)

(** No two live users share an email. *)
Definition live_emails_unique (db : DB) : Prop :=
  NoDup (map User.Email (filter (gorm.live User.DeletedAt) (users db))).

(** An error answer: any status from 400 on. *)
Definition is_error (r : HTTPResponse) : Prop := (400 <= code r)%N.

Module Scenario2.
Import Scenario.

(** A codec that reads back the token Alice is issued at time 5000. *)
Definition ParseUnverified (s : string) : option Token :=
  if String.eqb s "alice@example.com/user/your_secret_key"
  then Some (mkToken s SigningMethodHS256 (claims_of alice 91400) false)
  else None.

Definition italian : CreateRestaurantRequest.t :=
  CreateRestaurantRequest.mk "Trattoria" "Fresh pasta" "3 High St" "555-0199".

Definition trattoria : Restaurant.t :=
  Restaurant.mk 3 "Trattoria" "Fresh pasta" "3 High St" "555-0199" 1
    5000 5000 None.

Definition take_bobs_email : UpdateUserRequest.t :=
  UpdateUserRequest.mk "" "bob@example.com" "" "".

Definition header {B} (authorization : string) (b : result B) : echo.Context B :=
  echo.mkContext authorization (fun _ => "") b None.

End Scenario2.

(** * Properties *)

(** ** Facts about the tables *)

Section TableFacts.
Context {R : Type}.
Variable pk : R -> N.
Variable deleted_at : R -> option Z.

Let by_id (id : N) : R -> bool := fun r => N.eqb (pk r) id.

Lemma First_Save_same (row : R) (rows : list R) :
  gorm.live deleted_at row = true ->
  gorm.First deleted_at (by_id (pk row)) (gorm.Save pk row rows) = Some row.
Proof.
  intros Hlive. unfold gorm.First, by_id.
  induction rows as [|r rest IH]; simpl.
  - now rewrite N.eqb_refl, Hlive.
  - destruct (N.eqb (pk r) (pk row)) eqn:E; simpl.
    + now rewrite N.eqb_refl, Hlive.
    + rewrite E. simpl. exact IH.
Qed.

Lemma First_Save_other (id : N) (row : R) (rows : list R) :
  pk row <> id ->
  gorm.First deleted_at (by_id id) (gorm.Save pk row rows)
  = gorm.First deleted_at (by_id id) rows.
Proof.
  intros Hne. apply N.eqb_neq in Hne. unfold gorm.First, by_id.
  induction rows as [|r rest IH]; simpl.
  - now rewrite Hne.
  - destruct (N.eqb (pk r) (pk row)) eqn:E; simpl.
    + apply N.eqb_eq in E. rewrite E, Hne. reflexivity.
    + destruct (N.eqb (pk r) id && gorm.live deleted_at r); [reflexivity | exact IH].
Qed.

Lemma First_Delete_same (stamp : R -> R) (id : N) (rows : list R) :
  (forall r, gorm.live deleted_at (stamp r) = false) ->
  gorm.First deleted_at (by_id id) (gorm.Delete pk deleted_at stamp id rows) = None.
Proof.
  intros Hstamp. unfold gorm.First, gorm.Delete, by_id.
  induction rows as [|r rest IH]; simpl; [reflexivity|].
  destruct (N.eqb (pk r) id && gorm.live deleted_at r) eqn:E.
  - rewrite Hstamp, andb_false_r. exact IH.
  - rewrite E. exact IH.
Qed.

Lemma First_Delete_other (stamp : R -> R) (id id' : N) (rows : list R) :
  id' <> id ->
  (forall r, pk (stamp r) = pk r) ->
  gorm.First deleted_at (by_id id') (gorm.Delete pk deleted_at stamp id rows)
  = gorm.First deleted_at (by_id id') rows.
Proof.
  intros Hne Hpk. unfold gorm.First, gorm.Delete, by_id.
  induction rows as [|r rest IH]; simpl; [reflexivity|].
  destruct (N.eqb (pk r) id && gorm.live deleted_at r) eqn:E.
  - apply andb_prop in E. destruct E as [E _]. apply N.eqb_eq in E.
    rewrite Hpk. assert (N.eqb (pk r) id' = false) as ->
      by (apply N.eqb_neq; congruence).
    simpl. exact IH.
  - destruct (N.eqb (pk r) id' && gorm.live deleted_at r); [reflexivity | exact IH].
Qed.

Lemma First_some (cond : R -> bool) (rows : list R) (r : R) :
  gorm.First deleted_at cond rows = Some r ->
  In r rows /\ cond r = true /\ gorm.live deleted_at r = true.
Proof.
  unfold gorm.First. intros H. apply find_some in H.
  destruct H as [Hin H]. apply andb_prop in H. tauto.
Qed.

Lemma next_id_above (rows : list R) (r : R) :
  In r rows -> (pk r < gorm.next_id pk rows)%N.
Proof.
  unfold gorm.next_id. induction rows as [|x rest IH]; simpl; [tauto|].
  intros [-> | Hin]; [lia | specialize (IH Hin); lia].
Qed.

Lemma First_append_new (cond : R -> bool) (rows : list R) (row : R) :
  cond row = true -> gorm.live deleted_at row = true ->
  exists r, gorm.First deleted_at cond (rows ++ [row]) = Some r.
Proof.
  intros Hc Hl. unfold gorm.First.
  induction rows as [|x rest IH]; simpl.
  - rewrite Hc, Hl. simpl. eauto.
  - destruct (cond x && gorm.live deleted_at x); eauto.
Qed.

Lemma First_append_fresh (id : N) (rows : list R) (row : R) :
  pk row = id -> gorm.live deleted_at row = true ->
  (forall r, In r rows -> pk r <> id) ->
  gorm.First deleted_at (by_id id) (rows ++ [row]) = Some row.
Proof.
  intros Hpk Hl Hfresh. unfold gorm.First, by_id.
  induction rows as [|x rest IH]; simpl.
  - rewrite Hpk, N.eqb_refl, Hl. reflexivity.
  - assert (N.eqb (pk x) id = false) as ->
      by (apply N.eqb_neq, Hfresh; now left).
    simpl. apply IH. intros r Hr. apply Hfresh. now right.
Qed.
End TableFacts.

(** ** Facts about the repositories *)

Lemma restaurant_GetByID_ok (db : DB) (id : N) (r : Restaurant.t) :
  RestaurantRepository.GetByID db id = Ok r ->
  Restaurant.ID r = id /\ Restaurant.DeletedAt r = None /\ In r (restaurants db).
Proof.
  unfold RestaurantRepository.GetByID.
  destruct (gorm.First _ _ _) as [r0|] eqn:E; [|discriminate].
  intros [= ->]. apply First_some in E. destruct E as (Hin & Hid & Hl).
  unfold RestaurantRepository.id_is in Hid. apply N.eqb_eq in Hid.
  unfold gorm.live in Hl. destruct (Restaurant.DeletedAt r); [discriminate|].
  auto.
Qed.

Lemma restaurant_GetByID_Update (db : DB) (now : Z) (r : Restaurant.t) :
  Restaurant.DeletedAt r = None ->
  RestaurantRepository.GetByID
    (snd (RestaurantRepository.Update db now r)) (Restaurant.ID r)
  = Ok (Restaurant.set_UpdatedAt now r).
Proof.
  intros Hd. unfold RestaurantRepository.GetByID, RestaurantRepository.Update.
  cbn [snd restaurants with_restaurants].
  change (RestaurantRepository.id_is (Restaurant.ID r))
    with (fun x => N.eqb (Restaurant.ID x)
                     (Restaurant.ID (Restaurant.set_UpdatedAt now r))).
  rewrite First_Save_same; [reflexivity|].
  unfold gorm.live. cbn. now rewrite Hd.
Qed.

Lemma restaurant_GetByID_Update_other (db : DB) (now : Z) (r : Restaurant.t) (id : N) :
  Restaurant.ID r <> id ->
  RestaurantRepository.GetByID (snd (RestaurantRepository.Update db now r)) id
  = RestaurantRepository.GetByID db id.
Proof.
  intros Hne. unfold RestaurantRepository.GetByID, RestaurantRepository.Update.
  cbn [snd restaurants with_restaurants].
  unfold RestaurantRepository.id_is.
  rewrite First_Save_other; [reflexivity | exact Hne].
Qed.

Lemma restaurant_GetByID_Delete (db : DB) (now : Z) (id : N) :
  RestaurantRepository.GetByID (snd (RestaurantRepository.Delete db now id)) id
  = Err (errors_New "restaurant not found").
Proof.
  unfold RestaurantRepository.GetByID, RestaurantRepository.Delete.
  cbn [snd restaurants with_restaurants]. unfold RestaurantRepository.id_is.
  rewrite First_Delete_same; [reflexivity|]. intros r. reflexivity.
Qed.


Lemma allowed_iff (owner principal : N) (role : string) :
  negb (N.eqb owner principal) && negb (String.eqb role "admin") = false
  <-> (principal = owner \/ role = "admin").
Proof.
  rewrite andb_false_iff, !negb_false_iff, N.eqb_eq, String.eqb_eq.
  split; intros [H | H]; auto.
Qed.

Lemma UpdateRestaurant_found (db : DB) (now : Z) (id : N)
    (request : UpdateRestaurantRequest.t) (r : Restaurant.t) :
  RestaurantRepository.GetByID db id = Ok r ->
  exists r' db',
    RestaurantService.UpdateRestaurant db now id request = (Ok r', db')
    /\ RestaurantRepository.GetByID db' id = Ok r'
    /\ (forall id', id' <> id ->
          RestaurantRepository.GetByID db' id' = RestaurantRepository.GetByID db id')
    /\ users db' = users db
    /\ r' = Restaurant.mk (Restaurant.ID r)
              (overwrite (UpdateRestaurantRequest.Name request) (Restaurant.Name r))
              (overwrite (UpdateRestaurantRequest.Description request)
                 (Restaurant.Description r))
              (overwrite (UpdateRestaurantRequest.Address request)
                 (Restaurant.Address r))
              (overwrite (UpdateRestaurantRequest.Phone request) (Restaurant.Phone r))
              (Restaurant.UserID r) (Restaurant.CreatedAt r) now
              (Restaurant.DeletedAt r).
Proof.
  intros Hget.
  destruct (restaurant_GetByID_ok _ _ _ Hget) as (Hid & Hlive & _).
  unfold RestaurantService.UpdateRestaurant. rewrite Hget.
  set (row := Restaurant.mk (Restaurant.ID r)
              (overwrite (UpdateRestaurantRequest.Name request) (Restaurant.Name r))
              (overwrite (UpdateRestaurantRequest.Description request)
                 (Restaurant.Description r))
              (overwrite (UpdateRestaurantRequest.Address request)
                 (Restaurant.Address r))
              (overwrite (UpdateRestaurantRequest.Phone request) (Restaurant.Phone r))
              (Restaurant.UserID r) (Restaurant.CreatedAt r)
              (Restaurant.UpdatedAt r) (Restaurant.DeletedAt r)).
  assert (Hrow : (let restaurant :=
             if nonempty (UpdateRestaurantRequest.Name request)
             then Restaurant.set_Name (UpdateRestaurantRequest.Name request) r
             else r in
           let restaurant :=
             if nonempty (UpdateRestaurantRequest.Description request)
             then Restaurant.set_Description
                    (UpdateRestaurantRequest.Description request) restaurant
             else restaurant in
           let restaurant :=
             if nonempty (UpdateRestaurantRequest.Address request)
             then Restaurant.set_Address
                    (UpdateRestaurantRequest.Address request) restaurant
             else restaurant in
           if nonempty (UpdateRestaurantRequest.Phone request)
           then Restaurant.set_Phone (UpdateRestaurantRequest.Phone request) restaurant
           else restaurant) = row).
  { subst row. unfold overwrite.
    destruct (nonempty (UpdateRestaurantRequest.Name request)),
             (nonempty (UpdateRestaurantRequest.Description request)),
             (nonempty (UpdateRestaurantRequest.Address request)),
             (nonempty (UpdateRestaurantRequest.Phone request));
      destruct r; reflexivity. }
  cbv zeta in Hrow |- *. rewrite Hrow.
  exists (Restaurant.set_UpdatedAt now row),
         (snd (RestaurantRepository.Update db now row)).
  split; [reflexivity|]. split; [|split; [|split]].
  - rewrite <- Hid at 1.
    change (Restaurant.ID r) with (Restaurant.ID row).
    apply restaurant_GetByID_Update. exact Hlive.
  - intros id' Hne. apply restaurant_GetByID_Update_other.
    change (Restaurant.ID row) with (Restaurant.ID r). congruence.
  - reflexivity.
  - reflexivity.
Qed.

(** ** The claims *)

Section Claims.
Import utils http middleware.
Variable HashPassword : string -> result string.
Variable CheckPasswordHash : string -> string -> bool.
Variable ParseUnverified : string -> option Token.
Variable Verify : SigningMethod -> string -> string -> bool.
Variable SignedString : SigningMethod -> JWTClaims -> string -> result string.
Variable jwtSecret : string.
Context {VRegister : Validator RegisterUserRequest.t}.
Context {VLogin : Validator LoginUserRequest.t}.
Context {VUpdateUser : Validator UpdateUserRequest.t}.
Context {VUpdateRestaurant : Validator UpdateRestaurantRequest.t}.


Ltac policy_cases :=
  unfold may_act, is_admin, AdminRole in *;
  repeat match goal with
  | |- context [N.eqb ?a ?b] =>
      let E := fresh "E" in
      destruct (N.eqb a b) eqn:E;
      [apply N.eqb_eq in E | apply N.eqb_neq in E]
  | |- context [String.eqb ?a ?b] =>
      let E := fresh "E" in
      destruct (String.eqb a b) eqn:E;
      [apply String.eqb_eq in E | apply String.eqb_neq in E]
  end;
  cbn [negb andb orb fst snd code permission_denied].

(** C2 (amended).  When the target does not exist: a restaurant update or
    delete is answered NotFound whoever asks, and the ownership check on an
    existing restaurant comes before the write; a user get, update or delete
    checks the principal first, so it is answered NotFound only for the
    target itself or an admin, and Forbidden for anybody else.  Nothing is
    written in any of these cases. *)
Theorem missing_target_not_found_or_forbidden
    (now : Z) (db : DB) (id : N) (token : Token) (B : Type)
    (c : echo.Context B)
    (cu : echo.Context UpdateUserRequest.t) (ureq : UpdateUserRequest.t)
    (cr : echo.Context UpdateRestaurantRequest.t)
    (rreq : UpdateRestaurantRequest.t) :
  strconv.ParseUint32 (echo.Param c "id") = Ok id ->
  echo.user c = Some token ->
  strconv.ParseUint32 (echo.Param cu "id") = Ok id ->
  echo.user cu = Some token ->
  echo.Bind cu = Ok ureq ->
  validator_Struct ureq = None ->
  strconv.ParseUint32 (echo.Param cr "id") = Ok id ->
  echo.user cr = Some token ->
  echo.Bind cr = Ok rreq ->
  validator_Struct rreq = None ->
  let principal := Claims token in
  let user_not_found :=
    JSON StatusNotFound
      (NewErrorResponse "User not found" "The requested user does not exist") in
  let forbidden (out : HTTPResponse * DB) :=
    code (fst out) = StatusForbidden /\ snd out = db in
  (forall e, UserRepository.GetByID db id = Err e ->
     (may_act principal id ->
        UserHandler_GetUser now c db = (user_not_found, db)
        /\ UserHandler_DeleteUser now c db = (user_not_found, db)
        /\ (UpdateUserRequest.Role ureq = "" \/ Role principal = "admin" ->
            UserHandler_UpdateUser HashPassword now cu db = (user_not_found, db)))
     /\ (~ may_act principal id ->
        forbidden (UserHandler_GetUser now c db)
        /\ forbidden (UserHandler_DeleteUser now c db)
        /\ forbidden (UserHandler_UpdateUser HashPassword now cu db)))
  /\ (forall e, RestaurantRepository.GetByID db id = Err e ->
        RestaurantHandler_UpdateRestaurant now cr db = (restaurant_not_found, db)
        /\ RestaurantHandler_DeleteRestaurant now c db = (restaurant_not_found, db))
  /\ (forall r, RestaurantRepository.GetByID db id = Ok r ->
        ~ may_act principal (Restaurant.UserID r) ->
        forbidden (RestaurantHandler_UpdateRestaurant now cr db)
        /\ forbidden (RestaurantHandler_DeleteRestaurant now c db)).
Proof.
  intros Hp Hu Hpu Huu Hbu Hvu Hpr Hur Hbr Hvr principal user_not_found forbidden.
  subst forbidden user_not_found.
  unfold UserHandler_GetUser, UserHandler_DeleteUser, UserHandler_UpdateUser,
    RestaurantHandler_UpdateRestaurant, RestaurantHandler_DeleteRestaurant,
    AuthService.ExtractTokenClaims.
  rewrite Hp, Hu, Hpu, Huu, Hbu, Hvu, Hpr, Hur, Hbr, Hvr.
  fold principal.
  split; [|split].
  - intros e He.
    unfold UserService.GetUserByID, UserService.DeleteUser, UserService.UpdateUser.
    rewrite He. unfold nonempty.
    split.
    + intros Hmay. split; [|split].
      * policy_cases; try reflexivity; exfalso; destruct Hmay; congruence.
      * policy_cases; try reflexivity; exfalso; destruct Hmay; congruence.
      * intros Hrole. policy_cases; try reflexivity; exfalso;
          destruct Hmay, Hrole; congruence.
    + intros Hnot.
      repeat split; policy_cases; try reflexivity; exfalso; apply Hnot;
        unfold may_act; auto.
  - intros e He.
    unfold RestaurantService.GetRestaurantByIDWithoutUserCheck. rewrite He.
    split; reflexivity.
  - intros r Hr Hnot.
    unfold RestaurantService.GetRestaurantByIDWithoutUserCheck. rewrite Hr.
    repeat split; policy_cases; try reflexivity; exfalso; apply Hnot;
      unfold may_act; auto.
Qed.

(** C3.  A principal that is not an admin and asks for a restaurant under
    the path of another user is answered Forbidden, whatever the database
    holds. *)
Theorem read_other_users_restaurant_forbidden
    (now : Z) (db : DB) (B : Type) (c : echo.Context B)
    (userID restaurantID : N) (token : Token) :
  strconv.ParseUint32 (echo.Param c "userId") = Ok userID ->
  strconv.ParseUint32 (echo.Param c "id") = Ok restaurantID ->
  echo.user c = Some token ->
  Role (Claims token) <> "admin" ->
  userID <> UserID (Claims token) ->
  RestaurantHandler_GetUserRestaurant now c db
  = (JSON StatusForbidden
       (NewErrorResponse "Permission denied"
          "You don't have permission to access this resource"), db).
Proof.
  intros Hpu Hpr Hu Hrole Hother.
  unfold RestaurantHandler_GetUserRestaurant, AuthService.ExtractTokenClaims.
  rewrite Hpu, Hpr, Hu.
  assert (N.eqb (UserID (Claims token)) userID = false) as ->
    by (apply N.eqb_neq; congruence).
  apply String.eqb_neq in Hrole. rewrite Hrole. reflexivity.
Qed.

(** The same principal asking under its own path for a restaurant that
    belongs to somebody else is told that the restaurant does not exist. *)
Lemma read_foreign_restaurant_under_own_path
    (now : Z) (db : DB) (B : Type) (c : echo.Context B)
    (restaurantID : N) (token : Token) (self : User.t) (r : Restaurant.t) :
  strconv.ParseUint32 (echo.Param c "userId") = Ok (UserID (Claims token)) ->
  strconv.ParseUint32 (echo.Param c "id") = Ok restaurantID ->
  echo.user c = Some token ->
  UserRepository.GetByID db (UserID (Claims token)) = Ok self ->
  RestaurantRepository.GetByID db restaurantID = Ok r ->
  Restaurant.UserID r <> UserID (Claims token) ->
  RestaurantHandler_GetUserRestaurant now c db = (restaurant_not_found, db).
Proof.
  intros Hpu Hpr Hu Hself Hr Hother.
  unfold RestaurantHandler_GetUserRestaurant, AuthService.ExtractTokenClaims,
    RestaurantService.GetRestaurantByID.
  rewrite Hpu, Hpr, Hu, N.eqb_refl, Hself, Hr.
  apply N.eqb_neq in Hother. rewrite Hother. reflexivity.
Qed.

Lemma UserRepository_Create_ok (db db' : DB) (now : Z) (user row : User.t) :
  UserRepository.Create db now user = (Ok row, db') ->
  row = User.mk (gorm.next_id User.ID (users db)) (User.Name user)
          (User.Email user) (User.Password user) (User.Role user) now now None
  /\ db' = with_users (users db ++ [row]) db.
Proof.
  unfold UserRepository.Create.
  destruct (UserRepository.email_taken _ _ _); [discriminate|].
  intros [= <- <-]. split; reflexivity.
Qed.

Lemma Register_ok (db db' : DB) (now : Z) (request : RegisterUserRequest.t)
    (user : User.t) :
  AuthService.Register HashPassword db now request = (Ok user, db') ->
  exists hashedPassword,
    HashPassword (RegisterUserRequest.Password request) = Ok hashedPassword
    /\ user = User.mk (gorm.next_id User.ID (users db))
                (RegisterUserRequest.Name request)
                (RegisterUserRequest.Email request)
                hashedPassword "user" now now None
    /\ db' = with_users (users db ++ [user]) db.
Proof.
  unfold AuthService.Register.
  destruct (UserRepository.GetByEmail db _); [intros [=]|].
  destruct (HashPassword _) as [h|]; [|intros [=]].
  intros H. apply UserRepository_Create_ok in H. cbn in H.
  destruct H as [-> ->]. exists h. auto.
Qed.

Lemma Register_handler_created (now : Z) (c : echo.Context RegisterUserRequest.t)
    (request : RegisterUserRequest.t) (db : DB) :
  echo.Bind c = Ok request ->
  validator_Struct request = None ->
  code (fst (AuthHandler_Register HashPassword now c db)) = StatusCreated ->
  exists user,
    AuthService.Register HashPassword db now request
    = (Ok user, snd (AuthHandler_Register HashPassword now c db))
    /\ fst (AuthHandler_Register HashPassword now c db)
       = JSON StatusCreated
           (NewSuccessResponse "User registered successfully"
              (user_data (User_ToResponse user))).
Proof.
  intros Hb Hv. unfold AuthHandler_Register. rewrite Hb, Hv.
  destruct (AuthService.Register HashPassword db now request) as [[user|e] db'];
    cbn; [eauto | discriminate].
Qed.

(** C4 (amended).  After a successful registration, a second registration
    with the same email is refused with the message "user with this email
    already exists", creates nothing, and is answered 500 Internal Server
    Error. *)
Theorem second_registration_fails_internal
    (now now' : Z) (c c' : echo.Context RegisterUserRequest.t)
    (request request' : RegisterUserRequest.t) (db : DB) :
  echo.Bind c = Ok request -> validator_Struct request = None ->
  echo.Bind c' = Ok request' -> validator_Struct request' = None ->
  RegisterUserRequest.Email request = RegisterUserRequest.Email request' ->
  code (fst (AuthHandler_Register HashPassword now c db)) = StatusCreated ->
  let db1 := snd (AuthHandler_Register HashPassword now c db) in
  AuthHandler_Register HashPassword now' c' db1
  = (JSON StatusInternalServerError
       (NewErrorResponse "Failed to register user"
          "user with this email already exists"), db1).
Proof.
  intros Hb Hv Hb' Hv' Hemail Hcreated db1.
  destruct (Register_handler_created now c request db Hb Hv Hcreated)
    as (user & Hreg & _).
  fold db1 in Hreg. apply Register_ok in Hreg.
  destruct Hreg as (h & _ & Huser & Hdb1).
  unfold AuthHandler_Register at 1. rewrite Hb', Hv'.
  unfold AuthService.Register, UserRepository.GetByEmail.
  rewrite Hdb1. cbn [users with_users].
  destruct (First_append_new User.DeletedAt
              (UserRepository.email_is (RegisterUserRequest.Email request'))
              (users db) user) as [found Hfound].
  - rewrite Huser. unfold UserRepository.email_is. cbn.
    rewrite Hemail. apply String.eqb_refl.
  - rewrite Huser. reflexivity.
  - rewrite Hfound. reflexivity.
Qed.

Lemma user_GetByID_ok (db : DB) (id : N) (u : User.t) :
  UserRepository.GetByID db id = Ok u ->
  User.ID u = id /\ User.DeletedAt u = None /\ In u (users db).
Proof.
  unfold UserRepository.GetByID.
  destruct (gorm.First _ _ _) as [u0|] eqn:E; [|discriminate].
  intros [= ->]. apply First_some in E. destruct E as (Hin & Hid & Hl).
  unfold UserRepository.id_is in Hid. apply N.eqb_eq in Hid.
  unfold gorm.live in Hl. destruct (User.DeletedAt u); [discriminate|].
  auto.
Qed.

Lemma UserRepository_Update_ok (db db' : DB) (now : Z) (user row : User.t) :
  UserRepository.Update db now user = (Ok row, db') ->
  User.DeletedAt user = None ->
  row = User.set_UpdatedAt now user
  /\ UserRepository.GetByID db' (User.ID user) = Ok row
  /\ (forall id', id' <> User.ID user ->
        UserRepository.GetByID db' id' = UserRepository.GetByID db id')
  /\ restaurants db' = restaurants db.
Proof.
  unfold UserRepository.Update.
  destruct (UserRepository.email_taken _ _ _); [discriminate|].
  intros [= <- <-] Hlive. split; [reflexivity|].
  unfold UserRepository.GetByID. cbn [users with_users restaurants].
  split; [|split; [|reflexivity]].
  - change (UserRepository.id_is (User.ID user))
      with (fun x => N.eqb (User.ID x) (User.ID (User.set_UpdatedAt now user))).
    rewrite First_Save_same; [reflexivity|].
    unfold gorm.live. cbn. now rewrite Hlive.
  - intros id' Hne. unfold UserRepository.id_is.
    rewrite First_Save_other; [reflexivity|]. cbn. congruence.
Qed.

Lemma UserRepository_Update_err (db db' : DB) (now : Z) (user : User.t) (e : error) :
  UserRepository.Update db now user = (Err e, db') -> db' = db.
Proof.
  unfold UserRepository.Update.
  destruct (UserRepository.email_taken _ _ _); intros [=]; auto.
Qed.

Lemma overwrite_empty (previous : string) : overwrite "" previous = previous.
Proof. reflexivity. Qed.

Lemma overwrite_supplied (supplied previous : string) :
  supplied <> "" -> overwrite supplied previous = supplied.
Proof.
  intros H. unfold overwrite, nonempty.
  apply String.eqb_neq in H. now rewrite H.
Qed.

Lemma UpdateUser_ok (db db' : DB) (now : Z) (id : N)
    (request : UpdateUserRequest.t) (u' : User.t) :
  UserService.UpdateUser HashPassword db now id request = (Ok u', db') ->
  exists u,
    UserRepository.GetByID db id = Ok u
    /\ User.Name u' = overwrite (UpdateUserRequest.Name request) (User.Name u)
    /\ User.Email u' = overwrite (UpdateUserRequest.Email request) (User.Email u)
    /\ (if nonempty (UpdateUserRequest.Password request)
        then HashPassword (UpdateUserRequest.Password request)
             = Ok (User.Password u')
        else User.Password u' = User.Password u)
    /\ User.Role u' = overwrite (UpdateUserRequest.Role request) (User.Role u)
    /\ (UpdateUserRequest.Role request <> "" ->
        UpdateUserRequest.Role request = "admin"
        \/ UpdateUserRequest.Role request = "user")
    /\ User.ID u' = User.ID u
    /\ User.CreatedAt u' = User.CreatedAt u
    /\ User.UpdatedAt u' = now
    /\ User.DeletedAt u' = User.DeletedAt u
    /\ UserRepository.GetByID db' id = Ok u'
    /\ (forall id', id' <> id ->
          UserRepository.GetByID db' id' = UserRepository.GetByID db id')
    /\ restaurants db' = restaurants db.
Proof.
  unfold UserService.UpdateUser.
  destruct (UserRepository.GetByID db id) as [u|] eqn:Hget; [|intros [=]].
  destruct (user_GetByID_ok _ _ _ Hget) as (Hid & Hlive & _).
  cbv zeta. unfold overwrite.
  destruct (nonempty (UpdateUserRequest.Name request)) eqn:En;
  destruct (nonempty (UpdateUserRequest.Email request)) eqn:Ee;
  destruct (nonempty (UpdateUserRequest.Password request)) eqn:Ep;
  destruct (nonempty (UpdateUserRequest.Role request)) eqn:Er;
  cbn [andb User.Email User.set_Name];
  repeat match goal with
  | |- context [String.eqb ?a ?b] =>
      let E := fresh "E" in
      destruct (String.eqb a b) eqn:E;
      [apply String.eqb_eq in E | apply String.eqb_neq in E]
  | |- context [UserRepository.GetByEmail ?d ?e] =>
      destruct (UserRepository.GetByEmail d e)
  | |- context [N.eqb ?a ?b] => destruct (N.eqb a b)
  | |- context [HashPassword ?p] =>
      let E := fresh "E" in destruct (HashPassword p) eqn:E
  end;
  cbn [negb andb]; try (intros [=]; fail);
  intros Hupd;
  apply UserRepository_Update_ok in Hupd; try (cbn; exact Hlive);
  destruct Hupd as (-> & Hstored & Hothers & Hrest);
  cbn in Hstored, Hothers |- *; rewrite Hid in Hstored, Hothers;
  exists u; unfold nonempty in Er;
  repeat split; auto; try congruence;
  try (intros _; auto; fail);
  try (intros Hne; apply String.eqb_neq in Hne; rewrite Hne in Er; discriminate).
Qed.

Lemma UpdateUser_err (db db' : DB) (now : Z) (id : N)
    (request : UpdateUserRequest.t) (e : error) :
  UserService.UpdateUser HashPassword db now id request = (Err e, db') ->
  db' = db.
Proof.
  unfold UserService.UpdateUser.
  destruct (UserRepository.GetByID db id) as [u|]; [|intros [=]; auto].
  cbv zeta.
  repeat match goal with
  | |- context [if ?b then _ else _] => destruct b
  | |- context [match UserRepository.GetByEmail ?d ?m with _ => _ end] =>
      destruct (UserRepository.GetByEmail d m)
  | |- context [match HashPassword ?p with _ => _ end] =>
      destruct (HashPassword p)
  end;
  try (intros [=]; auto; fail);
  intros H; apply UserRepository_Update_err in H; auto.
Qed.

(** C5.  On any database, a successful partial update of a restaurant, and
    likewise and independently a successful partial update of a user, leaves
    every field that the request supplies as the empty string at its stored
    value and writes the supplied value of every other request field (for
    the password, its hash); the identifier, the owner, the creation time
    and the deletion mark are kept, the modification time becomes the time
    of the update, the row read back is the one returned, and no other row
    is touched. *)
Theorem partial_update_only_changes_supplied_fields (db : DB) (now : Z) :
  (forall (rid : N) (rreq : UpdateRestaurantRequest.t) (r' : Restaurant.t)
          (dbr : DB),
   RestaurantService.UpdateRestaurant db now rid rreq = (Ok r', dbr) ->
   exists r,
     RestaurantRepository.GetByID db rid = Ok r
     /\ Restaurant.Name r'
        = overwrite (UpdateRestaurantRequest.Name rreq) (Restaurant.Name r)
     /\ Restaurant.Description r'
        = overwrite (UpdateRestaurantRequest.Description rreq)
            (Restaurant.Description r)
     /\ Restaurant.Address r'
        = overwrite (UpdateRestaurantRequest.Address rreq) (Restaurant.Address r)
     /\ Restaurant.Phone r'
        = overwrite (UpdateRestaurantRequest.Phone rreq) (Restaurant.Phone r)
     /\ Restaurant.ID r' = Restaurant.ID r
     /\ Restaurant.UserID r' = Restaurant.UserID r
     /\ Restaurant.CreatedAt r' = Restaurant.CreatedAt r
     /\ Restaurant.UpdatedAt r' = now
     /\ Restaurant.DeletedAt r' = Restaurant.DeletedAt r
     /\ RestaurantRepository.GetByID dbr rid = Ok r'
     /\ (forall id', id' <> rid ->
           RestaurantRepository.GetByID dbr id'
           = RestaurantRepository.GetByID db id')
     /\ users dbr = users db)
  /\
  (forall (uid : N) (ureq : UpdateUserRequest.t) (u' : User.t) (dbu : DB),
   UserService.UpdateUser HashPassword db now uid ureq = (Ok u', dbu) ->
   exists u,
     UserRepository.GetByID db uid = Ok u
     /\ User.Name u' = overwrite (UpdateUserRequest.Name ureq) (User.Name u)
     /\ User.Email u' = overwrite (UpdateUserRequest.Email ureq) (User.Email u)
     /\ (UpdateUserRequest.Password ureq = "" -> User.Password u' = User.Password u)
     /\ (UpdateUserRequest.Password ureq <> "" ->
         HashPassword (UpdateUserRequest.Password ureq) = Ok (User.Password u'))
     /\ User.Role u' = overwrite (UpdateUserRequest.Role ureq) (User.Role u)
     /\ User.ID u' = User.ID u
     /\ User.CreatedAt u' = User.CreatedAt u
     /\ User.UpdatedAt u' = now
     /\ User.DeletedAt u' = User.DeletedAt u
     /\ UserRepository.GetByID dbu uid = Ok u'
     /\ (forall id', id' <> uid ->
           UserRepository.GetByID dbu id' = UserRepository.GetByID db id')
     /\ restaurants dbu = restaurants db).
Proof.
  split.
  - intros rid rreq r' dbr Hr.
    destruct (RestaurantRepository.GetByID db rid) as [r|e] eqn:Hget.
    + destruct (UpdateRestaurant_found db now rid rreq r Hget)
        as (r1 & db1 & Heq & Hstored & Hothers & Husers & Hfields).
      rewrite Heq in Hr. injection Hr as <- <-.
      exists r. rewrite Hfields in Hstored |- *. cbn. repeat split; auto.
    + unfold RestaurantService.UpdateRestaurant in Hr. rewrite Hget in Hr.
      discriminate.
  - intros uid ureq u' dbu Hu. apply UpdateUser_ok in Hu.
    destruct Hu as (u & Hget & Hn & He & Hp & Hro & _ & Hid & Hc & Hup & Hd
                    & Hstored & Hothers & Hrest).
    exists u. repeat split; auto.
    + intros Hempty. rewrite Hempty in Hp. exact Hp.
    + intros Hsupplied. unfold nonempty in Hp.
      apply String.eqb_neq in Hsupplied. rewrite Hsupplied in Hp. exact Hp.
Qed.

(** C6.  A well-formed user update that names a role is answered Forbidden
    when the principal is not an admin, and nothing is written; whatever the
    request, the role of a user changes only when the principal is an admin,
    and only to "admin" or "user". *)
Theorem role_change_restricted_to_admins
    (now : Z) (db : DB) (id : N) (token : Token)
    (c : echo.Context UpdateUserRequest.t) (request : UpdateUserRequest.t) :
  strconv.ParseUint32 (echo.Param c "id") = Ok id ->
  echo.Bind c = Ok request ->
  validator_Struct request = None ->
  echo.user c = Some token ->
  let principal := Claims token in
  let out := UserHandler_UpdateUser HashPassword now c db in
  (UpdateUserRequest.Role request <> "" -> Role principal <> "admin" ->
     out = (JSON StatusForbidden
              (NewErrorResponse "Permission denied"
                 "Only admins can change user roles"), db))
  /\ (forall id' u u',
        UserRepository.GetByID db id' = Ok u ->
        UserRepository.GetByID (snd out) id' = Ok u' ->
        User.Role u' <> User.Role u ->
        Role principal = "admin"
        /\ (User.Role u' = "admin" \/ User.Role u' = "user")).
Proof.
  intros Hp Hb Hv Hu principal out. subst out.
  unfold UserHandler_UpdateUser, AuthService.ExtractTokenClaims.
  rewrite Hp, Hb, Hv, Hu. fold principal. unfold nonempty, is_admin, AdminRole.
  split.
  - intros Hrole Hnot. apply String.eqb_neq in Hrole, Hnot.
    rewrite Hrole, Hnot. reflexivity.
  - intros id' u u' Hbefore.
    destruct (String.eqb (UpdateUserRequest.Role request) "") eqn:Erole;
    destruct (String.eqb (Role principal) "admin") eqn:Eadmin;
    destruct (N.eqb (UserID principal) id) eqn:Eid;
    cbn [negb andb snd];
    try (intros Hafter Hchg; exfalso; apply Hchg; congruence).
    all: destruct (UserService.UpdateUser HashPassword db now id request)
      as [[u1|e] db1] eqn:Hupd;
      [ apply UpdateUser_ok in Hupd | apply UpdateUser_err in Hupd ].
    all: try (destruct (is_ErrUserNotFound e); cbn [snd]; subst db1;
              intros Hafter Hchg; exfalso; apply Hchg; congruence).
    all: cbn [snd];
      destruct Hupd as (u0 & Hget & _ & _ & _ & Hro & Hvalid & _ & _ & _ & _
                        & Hstored & Hothers & _);
      intros Hafter Hchg;
      destruct (N.eq_dec id' id) as [-> | Hne];
      [ assert (u1 = u') by congruence; assert (u0 = u) by congruence; subst u1 u0
      | rewrite (Hothers id' Hne) in Hafter; exfalso; apply Hchg; congruence ].
    all: try (apply String.eqb_eq in Erole; rewrite Erole in Hro;
              rewrite overwrite_empty in Hro; exfalso; apply Hchg; exact Hro).
    all: apply String.eqb_neq in Erole; apply String.eqb_eq in Eadmin;
      rewrite (overwrite_supplied _ _ Erole) in Hro;
      split; [exact Eadmin | rewrite Hro; apply Hvalid; exact Erole].
Qed.

Lemma substring_all (s : string) : String.substring 0 (String.length s) s = s.
Proof. induction s as [|a s IH]; cbn; [reflexivity | now rewrite IH]. Qed.

Lemma prefix_app (p s : string) : String.prefix p (p ++ s) = true.
Proof.
  induction p as [|a p IH]; cbn; [destruct s; reflexivity|].
  destruct (ascii_dec a a); [exact IH | congruence].
Qed.

Lemma TrimPrefix_app (p s : string) : TrimPrefix (p ++ s) p = s.
Proof.
  unfold TrimPrefix. rewrite prefix_app.
  induction p as [|a p IH]; cbn.
  - rewrite Nat.sub_0_r. apply substring_all.
  - exact IH.
Qed.

Lemma expired_invalid (claims : JWTClaims) (now : Z) :
  ExpiresAt claims <> 0%Z -> (ExpiresAt claims < now)%Z ->
  jwt.Claims_Valid claims now = Some (errors_New "token is expired").
Proof.
  intros Hset Hpast. unfold jwt.Claims_Valid, jwt.verifyExp.
  apply Z.eqb_neq in Hset. rewrite Hset.
  assert ((now <=? ExpiresAt claims)%Z = false) as -> by (apply Z.leb_gt; lia).
  reflexivity.
Qed.

(** C7.  A token that is past its expiry, or whose signature does not verify
    under the configured secret, fails validation and a request carrying it
    is stopped by the middleware with 401 Unauthorized; a token of an HMAC
    method whose claims are valid now and whose signature verifies under the
    secret is validated to its claims, and the request carrying it reaches
    the handler with the token in its context. *)
Theorem token_validation
    (now : Z) (tokenString : string) (token : Token)
    (B : Type) (next : HandlerFunc B) (c : echo.Context B) (db : DB) :
  ParseUnverified tokenString = Some token ->
  echo.Authorization c = "Bearer " ++ tokenString ->
  ((ExpiresAt (Claims token) <> 0%Z /\ (ExpiresAt (Claims token) < now)%Z)
   \/ Verify (Method token) (Raw token) jwtSecret = false ->
   (exists e,
      AuthService.ValidateToken ParseUnverified Verify jwtSecret now tokenString
      = Err e)
   /\ (exists message,
         JWT ParseUnverified Verify jwtSecret next now c db
         = (NewHTTPError StatusUnauthorized message, db)))
  /\
  ((exists alg, Method token = SigningMethodHMAC alg) ->
   jwt.Claims_Valid (Claims token) now = None ->
   Verify (Method token) (Raw token) jwtSecret = true ->
   AuthService.ValidateToken ParseUnverified Verify jwtSecret now tokenString
   = Ok (Claims token)
   /\ JWT ParseUnverified Verify jwtSecret next now c db
      = next now (echo.Set_user c (set_Valid true token)) db).
Proof.
  intros Hparse Hheader.
  unfold AuthService.ValidateToken, JWT.
  rewrite Hheader.
  assert (String.eqb ("Bearer " ++ tokenString) "" = false) as ->
    by reflexivity.
  rewrite prefix_app, TrimPrefix_app. cbn [negb].
  unfold jwt.ParseWithClaims. rewrite Hparse.
  unfold AuthService.keyFunc.
  split.
  - intros Hbad.
    destruct (Method token) as [alg|alg] eqn:Hm; [|split; eauto].
    destruct Hbad as [[Hset Hpast] | Hsig].
    + rewrite (expired_invalid _ _ Hset Hpast). split; eauto.
    + destruct (jwt.Claims_Valid (Claims token) now); [split; eauto|].
      rewrite Hsig. split; eauto.
  - intros [alg Hm] Hvalid Hsig. rewrite Hm in Hsig |- *.
    rewrite Hvalid, Hsig. split; reflexivity.
Qed.

(** C8.  The token returned by a successful login is the HS256 signature,
    under the configured secret, of claims that carry the id, the email and
    the role of the user who logged in and an expiry 86400 seconds after the
    time of the login, and no other time claim. *)
Theorem login_token_embeds_user_claims
    (db : DB) (now : Z) (request : LoginUserRequest.t)
    (user : User.t) (token : string) :
  AuthService.Login CheckPasswordHash SignedString jwtSecret db now request
  = Ok (user, token) ->
  UserRepository.GetByEmail db (LoginUserRequest.Email request) = Ok user
  /\ AuthService.generateToken SignedString jwtSecret now user = Ok token
  /\ exists claims,
       SignedString SigningMethodHS256 claims jwtSecret = Ok token
       /\ UserID claims = User.ID user
       /\ Email claims = User.Email user
       /\ Role claims = User.Role user
       /\ ExpiresAt claims = (now + 86400)%Z
       /\ IssuedAt claims = 0%Z
       /\ NotBefore claims = 0%Z.
Proof.
  unfold AuthService.Login.
  destruct (UserRepository.GetByEmail db _) as [found|]; [|discriminate].
  destruct (CheckPasswordHash _ _); cbn [negb]; [|discriminate].
  destruct (AuthService.generateToken SignedString jwtSecret now found)
    as [t|] eqn:Hgen; [|discriminate].
  intros [= <- <-]. split; [reflexivity|]. split; [exact Hgen|].
  unfold AuthService.generateToken in Hgen.
  destruct (SignedString _ _ _) as [t'|] eqn:Hsign; [|discriminate].
  injection Hgen as <-.
  eexists. split; [exact Hsign|]. cbn. repeat split; lia.
Qed.

Lemma user_GetByID_created (db : DB) (row : User.t) :
  User.ID row = gorm.next_id User.ID (users db) ->
  User.DeletedAt row = None ->
  UserRepository.GetByID (with_users (users db ++ [row]) db) (User.ID row)
  = Ok row.
Proof.
  intros Hid Hlive. unfold UserRepository.GetByID, UserRepository.id_is.
  cbn [users with_users].
  rewrite (First_append_fresh User.ID User.DeletedAt (User.ID row)).
  - reflexivity.
  - reflexivity.
  - unfold gorm.live. now rewrite Hlive.
  - intros r Hin Heq. apply (next_id_above User.ID User.DeletedAt) in Hin. lia.
Qed.

Lemma Register_err (db db' : DB) (now : Z) (request : RegisterUserRequest.t)
    (e : error) :
  AuthService.Register HashPassword db now request = (Err e, db') -> db' = db.
Proof.
  unfold AuthService.Register, UserRepository.Create.
  destruct (UserRepository.GetByEmail db _); [intros [=]; auto|].
  destruct (HashPassword _); [|intros [=]; auto].
  destruct (UserRepository.email_taken _ _ _); intros [=]; auto.
Qed.

(** C9.  Whatever the registration request (it has a name, an email and a
    password and nothing else), a registration either fails and leaves the
    database as it was, or adds exactly one user, whose role is "user" and
    which is the user returned and read back; the response of the handler
    shows that role. *)
Theorem registration_assigns_user_role
    (db : DB) (now : Z) (name email password : string) :
  let request := RegisterUserRequest.mk name email password in
  match AuthService.Register HashPassword db now request with
  | (Ok user, db') =>
      User.Role user = "user"
      /\ User.Name user = name /\ User.Email user = email
      /\ users db' = (users db ++ [user])%list
      /\ restaurants db' = restaurants db
      /\ UserRepository.GetByID db' (User.ID user) = Ok user
      /\ forall c : echo.Context RegisterUserRequest.t,
           echo.Bind c = Ok request -> validator_Struct request = None ->
           exists shown,
             AuthHandler_Register HashPassword now c db
             = (JSON StatusCreated
                  (NewSuccessResponse "User registered successfully"
                     (user_data shown)), db')
             /\ ur_Role shown = "user"
  | (Err _, db') => db' = db
  end.
Proof.
  intros request.
  destruct (AuthService.Register HashPassword db now request)
    as [[user|e] db'] eqn:Hreg.
  - pose proof Hreg as Hok. apply Register_ok in Hok.
    destruct Hok as (h & _ & Huser & Hdb').
    assert (Hrole : User.Role user = "user") by (rewrite Huser; reflexivity).
    repeat split; try (rewrite Huser; reflexivity); try (rewrite Hdb'; reflexivity).
    + rewrite Hdb'. apply user_GetByID_created; rewrite Huser; reflexivity.
    + intros c Hb Hv. unfold AuthHandler_Register. rewrite Hb, Hv, Hreg.
      eexists. split; [reflexivity | exact Hrole].
  - apply Register_err in Hreg. exact Hreg.
Qed.

(** C10.  A login with an email that no user has and a login with the email
    of a user but a password that does not match its hash fail with the same
    error, "invalid email or password", and the two requests receive the
    same 401 response. *)
Theorem login_failures_are_indistinguishable
    (db : DB) (now : Z) (unknown known : LoginUserRequest.t)
    (user : User.t) (e : error)
    (c1 c2 : echo.Context LoginUserRequest.t) :
  UserRepository.GetByEmail db (LoginUserRequest.Email unknown) = Err e ->
  UserRepository.GetByEmail db (LoginUserRequest.Email known) = Ok user ->
  CheckPasswordHash (LoginUserRequest.Password known) (User.Password user) = false ->
  echo.Bind c1 = Ok unknown -> validator_Struct unknown = None ->
  echo.Bind c2 = Ok known -> validator_Struct known = None ->
  let login := AuthService.Login CheckPasswordHash SignedString jwtSecret db now in
  let handle := AuthHandler_Login CheckPasswordHash SignedString jwtSecret now in
  login unknown = Err (errors_New "invalid email or password")
  /\ login known = Err (errors_New "invalid email or password")
  /\ handle c1 db
     = (JSON StatusUnauthorized
          (NewErrorResponse "Authentication failed" "invalid email or password"),
        db)
  /\ handle c2 db = handle c1 db.
Proof.
  intros Hunknown Hknown Hwrong Hb1 Hv1 Hb2 Hv2 login handle.
  assert (H1 : login unknown = Err (errors_New "invalid email or password")).
  { subst login. unfold AuthService.Login. now rewrite Hunknown. }
  assert (H2 : login known = Err (errors_New "invalid email or password")).
  { subst login. unfold AuthService.Login. now rewrite Hknown, Hwrong. }
  subst handle. unfold AuthHandler_Login. rewrite Hb1, Hv1, Hb2, Hv2.
  fold login. rewrite H1, H2. repeat split.
Qed.

End Claims.

(** ** The claims on the concrete deployment *)

Section Instances.
Import utils http middleware Scenario.
Local Open Scope Z_scope.


(** C2, as worded, fails: Alice, who is not an admin, deletes user 9, who
    does not exist, and is answered Forbidden. *)
Lemma unknown_user_forbidden_counterexample :
  ~ unknown_user_is_always_not_found.
Proof.
  intros H.
  specialize (H 5000%Z unit (request_by alice "9" no_body) db0 9%N
                (token_of alice) (errors_New "user not found")
                eq_refl eq_refl eq_refl).
  vm_compute in H. discriminate H.
Qed.

Lemma missing_target_not_found_or_forbidden_witness :
  UserRepository.GetByID db0 9 = Err (errors_New "user not found")
  /\ RestaurantRepository.GetByID db0 9 = Err (errors_New "restaurant not found")
  /\ code (fst (UserHandler_DeleteUser 5000 (request_by alice "9" no_body) db0))
     = StatusForbidden
  /\ RestaurantHandler_DeleteRestaurant 5000 (request_by alice "9" no_body) db0
     = (restaurant_not_found, db0)
  /\ code (fst (UserHandler_DeleteUser 5000 (request_by root "9" no_body) db0))
     = StatusNotFound.
Proof.
  split; [reflexivity|]. split; [reflexivity|].
  pose proof (missing_target_not_found_or_forbidden HashPassword
                (VUpdateUser := accept) (VUpdateRestaurant := accept)
                5000 db0 9 (token_of alice) unit
                (request_by alice "9" no_body)
                (request_by alice "9" (Ok new_name)) new_name
                (request_by alice "9" (Ok new_description)) new_description
                eq_refl eq_refl eq_refl eq_refl eq_refl eq_refl eq_refl eq_refl
                eq_refl eq_refl) as Ha.
  pose proof (missing_target_not_found_or_forbidden HashPassword
                (VUpdateUser := accept) (VUpdateRestaurant := accept)
                5000 db0 9 (token_of root) unit
                (request_by root "9" no_body)
                (request_by root "9" (Ok new_name)) new_name
                (request_by root "9" (Ok new_description)) new_description
                eq_refl eq_refl eq_refl eq_refl eq_refl eq_refl eq_refl eq_refl
                eq_refl eq_refl) as Hr.
  cbv zeta in Ha, Hr.
  destruct Ha as (Hau & Har & _). destruct Hr as (Hru & _).
  specialize (Hau _ eq_refl). specialize (Har _ eq_refl).
  specialize (Hru _ eq_refl).
  destruct Hau as (_ & Hdenied). destruct Har as (_ & Hgone).
  destruct Hru as (Hallowed & _).
  split; [|split].
  - destruct Hdenied as (_ & (Hcode & _) & _); [|exact Hcode].
    intros [H | H]; discriminate H.
  - exact Hgone.
  - destruct Hallowed as (_ & Hdel & _); [right; reflexivity|].
    rewrite Hdel. reflexivity.
Defined.

Lemma read_other_users_restaurant_forbidden_witness :
  let c := echo.mkContext "" (params "2" "2") no_body (Some (token_of alice)) in
  RestaurantRepository.GetByID db0 2 = Ok bistro
  /\ code (fst (RestaurantHandler_GetUserRestaurant 5000 c db0)) = StatusForbidden.
Proof.
  intros c. split; [reflexivity|].
  rewrite (read_other_users_restaurant_forbidden 5000 db0 unit c 2 2
             (token_of alice) eq_refl eq_refl eq_refl).
  - reflexivity.
  - discriminate.
  - discriminate.
Defined.

(** C4, as worded, fails: Carol registers twice on an empty database; the
    second answer is 500, not 409. *)
Lemma second_registration_conflict_counterexample :
  ~ second_registration_is_a_conflict HashPassword accept.
Proof.
  intros H.
  specialize (H 5000%Z 5001%Z (anonymous (Ok carol)) (anonymous (Ok carol))
                carol carol empty_db
                eq_refl eq_refl eq_refl eq_refl eq_refl eq_refl).
  vm_compute in H. discriminate H.
Qed.

Lemma second_registration_fails_internal_witness :
  let first :=
    AuthHandler_Register (VRegister := accept) HashPassword 5000
      (anonymous (Ok carol)) empty_db in
  code (fst first) = StatusCreated
  /\ code (fst (AuthHandler_Register (VRegister := accept) HashPassword 5001
                  (anonymous (Ok carol)) (snd first)))
     = StatusInternalServerError.
Proof.
  intros first. split; [reflexivity|].
  subst first.
  rewrite (second_registration_fails_internal HashPassword (VRegister := accept)
             5000 5001 (anonymous (Ok carol)) (anonymous (Ok carol))
             carol carol empty_db
             eq_refl eq_refl eq_refl eq_refl eq_refl eq_refl).
  reflexivity.
Defined.

Lemma partial_update_only_changes_supplied_fields_witness :
  let dbr := snd (RestaurantService.UpdateRestaurant db0 5000 1 new_description) in
  let dbu := snd (UserService.UpdateUser HashPassword db0 5000 1 new_name) in
  RestaurantService.UpdateRestaurant db0 5000 1 new_description
  = (Ok diner_updated, dbr)
  /\ UserService.UpdateUser HashPassword db0 5000 1 new_name
     = (Ok alice_updated, dbu)
  /\ RestaurantRepository.GetByID dbr 1 = Ok diner_updated
  /\ RestaurantRepository.GetByID dbr 2 = Ok bistro
  /\ UserRepository.GetByID dbu 1 = Ok alice_updated
  /\ UserRepository.GetByID dbu 2 = Ok bob
  /\ UserRepository.GetByID
       (snd (UserService.UpdateUser HashPassword (with_restaurants [] db0)
               5000 1 new_name)) 1
     = Ok alice_updated.
Proof.
  intros dbr dbu.
  assert (Hr : RestaurantService.UpdateRestaurant db0 5000 1 new_description
               = (Ok diner_updated, dbr)) by reflexivity.
  assert (Hu : UserService.UpdateUser HashPassword db0 5000 1 new_name
               = (Ok alice_updated, dbu)) by reflexivity.
  split; [exact Hr|]. split; [exact Hu|].
  destruct (partial_update_only_changes_supplied_fields HashPassword db0 5000)
    as [Hrestaurant Huser].
  destruct (Hrestaurant 1%N new_description diner_updated dbr Hr)
    as (r & _ & _ & _ & _ & _ & _ & _ & _ & _ & _ & Hrs & Hro & _).
  destruct (Huser 1%N new_name alice_updated dbu Hu)
    as (u & _ & _ & _ & _ & _ & _ & _ & _ & _ & _ & Hus & Huo & _).
  split; [exact Hrs|]. split; [|split; [exact Hus|split]].
  - rewrite Hro; [reflexivity | discriminate].
  - rewrite Huo; [reflexivity | discriminate].
  - destruct (partial_update_only_changes_supplied_fields HashPassword
                (with_restaurants [] db0) 5000) as [_ Halone].
    destruct (Halone 1%N new_name alice_updated
                (snd (UserService.UpdateUser HashPassword
                        (with_restaurants [] db0) 5000 1 new_name))
                eq_refl)
      as (u0 & _ & _ & _ & _ & _ & _ & _ & _ & _ & _ & Hstored & _).
    exact Hstored.
Defined.

Lemma role_change_restricted_to_admins_witness :
  UserHandler_UpdateUser (VUpdateUser := role_oneof) HashPassword 5000
    (request_by alice "1" (Ok make_me_admin)) db0
  = (permission_denied "Only admins can change user roles", db0).
Proof.
  destruct (role_change_restricted_to_admins HashPassword
              (VUpdateUser := role_oneof) 5000 db0 1 (token_of alice)
              (request_by alice "1" (Ok make_me_admin)) make_me_admin
              eq_refl eq_refl eq_refl eq_refl) as [Hdenied _].
  apply Hdenied; discriminate.
Defined.

Lemma token_validation_witness :
  (exists message,
     JWT ParseUnverified Verify secret UserHandler_GetUser 5000 (bearer "stale") db0
     = (NewHTTPError StatusUnauthorized message, db0))
  /\ (exists message,
        JWT ParseUnverified Verify secret UserHandler_GetUser 5000
          (bearer "forged") db0
        = (NewHTTPError StatusUnauthorized message, db0))
  /\ AuthService.ValidateToken ParseUnverified Verify secret 5000 "alice"
     = Ok (claims_of alice 90000)
  /\ code (fst (JWT ParseUnverified Verify secret UserHandler_GetUser 5000
                  (bearer "alice") db0)) = StatusOK.
Proof.
  split; [|split].
  - destruct (token_validation ParseUnverified Verify secret 5000 "stale"
                (mkToken "stale" SigningMethodHS256 (claims_of alice 1000) false)
                unit UserHandler_GetUser (bearer "stale") db0 eq_refl eq_refl)
      as [Hbad _].
    destruct Hbad as [_ Hstop]; [|exact Hstop].
    left. split; [discriminate | reflexivity].
  - destruct (token_validation ParseUnverified Verify secret 5000 "forged"
                (mkToken "forged" SigningMethodHS256 (claims_of root 90000) false)
                unit UserHandler_GetUser (bearer "forged") db0 eq_refl eq_refl)
      as [Hbad _].
    destruct Hbad as [_ Hstop]; [|exact Hstop].
    right. reflexivity.
  - destruct (token_validation ParseUnverified Verify secret 5000 "alice"
                (mkToken "alice" SigningMethodHS256 (claims_of alice 90000) false)
                unit UserHandler_GetUser (bearer "alice") db0 eq_refl eq_refl)
      as [_ Hgood].
    destruct Hgood as [Hclaims Hnext];
      [exists "HS256"; reflexivity | reflexivity | reflexivity |].
    split; [exact Hclaims|]. rewrite Hnext. reflexivity.
Defined.

Lemma login_token_embeds_user_claims_witness :
  let request := LoginUserRequest.mk "alice@example.com" "wonderland" in
  let token := "alice@example.com/user/your_secret_key" in
  AuthService.Login CheckPasswordHash SignedString secret db0 5000 request
  = Ok (alice, token)
  /\ SignedString SigningMethodHS256 (claims_of alice 91400) secret = Ok token.
Proof.
  intros request token.
  assert (Hlogin : AuthService.Login CheckPasswordHash SignedString secret
                     db0 5000 request = Ok (alice, token)) by reflexivity.
  split; [exact Hlogin|].
  destruct (login_token_embeds_user_claims CheckPasswordHash SignedString secret
              db0 5000 request alice token Hlogin)
    as (_ & _ & claims & Hsign & Hid & Hemail & Hrole & Hexp & Hiat & Hnbf).
  destruct claims as [id email role exp iat nbf]. cbn in *. subst.
  exact Hsign.
Defined.

Lemma registration_assigns_user_role_witness :
  exists user db',
    AuthService.Register HashPassword empty_db 5000 carol = (Ok user, db')
    /\ User.Role user = "user"%string
    /\ UserRepository.GetByID db' 1 = Ok user.
Proof.
  pose proof (registration_assigns_user_role HashPassword (VRegister := accept)
                empty_db 5000 "Carol" "carol@example.com" "password1") as H.
  cbv zeta in H.
  destruct (AuthService.Register HashPassword empty_db 5000
              (RegisterUserRequest.mk "Carol" "carol@example.com" "password1"))
    as [[user|e] db'] eqn:Hreg; [|discriminate Hreg].
  destruct H as (Hrole & _ & _ & _ & _ & Hstored & _).
  exists user, db'. split; [exact Hreg|]. split; [exact Hrole|].
  assert (Hid : User.ID user = 1%N)
    by (vm_compute in Hreg; injection Hreg as <- _; reflexivity).
  rewrite Hid in Hstored. exact Hstored.
Defined.

Lemma login_failures_are_indistinguishable_witness :
  let unknown := LoginUserRequest.mk "nobody@example.com" "wonderland" in
  let known := LoginUserRequest.mk "alice@example.com" "looking-glass" in
  UserRepository.GetByEmail db0 "nobody@example.com"
  = Err (errors_New "user not found")
  /\ UserRepository.GetByEmail db0 "alice@example.com" = Ok alice
  /\ AuthHandler_Login (VLogin := accept) CheckPasswordHash SignedString secret
       5000 (anonymous (Ok known)) db0
     = AuthHandler_Login (VLogin := accept) CheckPasswordHash SignedString secret
         5000 (anonymous (Ok unknown)) db0.
Proof.
  intros unknown known. split; [reflexivity|]. split; [reflexivity|].
  destruct (login_failures_are_indistinguishable CheckPasswordHash SignedString
              secret (VLogin := accept) db0 5000 unknown known alice
              (errors_New "user not found")
              (anonymous (Ok unknown)) (anonymous (Ok known))
              eq_refl eq_refl eq_refl eq_refl eq_refl eq_refl eq_refl)
    as (_ & _ & _ & Hsame).
  exact Hsame.
Defined.

End Instances.

(** * Properties beyond the claims *)

(** ** Reading the Authorization header *)

Section Header.
Import utils_token middleware http.

Lemma SplitN2_shape (s : string) :
  SplitN2 s = [s] \/ exists a b, SplitN2 s = [a; b] /\ s = a ++ String " " b.
Proof.
  induction s as [|c rest IH]; cbn; [now left|].
  destruct (Ascii.eqb c " ") eqn:E.
  - apply Ascii.eqb_eq in E. subst c. right. exists "", rest. split; reflexivity.
  - destruct IH as [-> | (a & b & -> & Hrest)].
    + now left.
    + right. exists (String c a), b. split; [reflexivity|].
      cbn. now rewrite Hrest.
Qed.

Lemma prefix_split (p s : string) :
  String.prefix p s = true -> exists t, s = p ++ t.
Proof.
  revert s. induction p as [|a p IH]; intros s H.
  - exists s. reflexivity.
  - destruct s as [|b s]; cbn in H; [discriminate|].
    destruct (ascii_dec a b) as [<- |]; [|discriminate].
    destruct (IH s H) as [t ->]. exists t. reflexivity.
Qed.

Lemma ExtractTokenFromHeader_bearer {B} (c : echo.Context B) (t : string) :
  ExtractTokenFromHeader c = Ok t <-> echo.Authorization c = "Bearer " ++ t.
Proof.
  unfold ExtractTokenFromHeader. split.
  - destruct (String.eqb (echo.Authorization c) ""); [discriminate|].
    destruct (SplitN2_shape (echo.Authorization c))
      as [-> | (a & b & -> & Hs)]; cbn; [discriminate|].
    destruct (String.eqb a "Bearer") eqn:Ea; cbn; [|discriminate].
    apply String.eqb_eq in Ea. subst a. intros [= <-]. exact Hs.
  - intros ->. reflexivity.
Qed.

(** X1.  [ExtractTokenFromHeader] returns a token exactly for the headers of
    the form "Bearer " followed by that token, which are the headers the JWT
    middleware accepts, and the token it returns is the one the middleware
    extracts. *)
Theorem ExtractTokenFromHeader_agrees_with_middleware
    (B : Type) (c : echo.Context B) :
  let auth := echo.Authorization c in
  (forall t, ExtractTokenFromHeader c = Ok t <-> auth = "Bearer " ++ t)
  /\ (String.prefix "Bearer " auth = true
      <-> exists t, ExtractTokenFromHeader c = Ok t)
  /\ (forall t, ExtractTokenFromHeader c = Ok t -> TrimPrefix auth "Bearer " = t)
  /\ (auth = "" ->
      ExtractTokenFromHeader c
      = Err (errors_New "authorization header is required")).
Proof.
  intros auth. split; [|split; [|split]].
  - intros t. apply ExtractTokenFromHeader_bearer.
  - split.
    + intros H. apply prefix_split in H. destruct H as [t Ht].
      exists t. apply ExtractTokenFromHeader_bearer. exact Ht.
    + intros [t Ht]. apply ExtractTokenFromHeader_bearer in Ht.
      subst auth. rewrite Ht. apply prefix_app.
  - intros t Ht. apply ExtractTokenFromHeader_bearer in Ht.
    subst auth. rewrite Ht. apply TrimPrefix_app.
  - intros H. subst auth. unfold ExtractTokenFromHeader. rewrite H. reflexivity.
Qed.

End Header.

(** ** Path parameters *)

Section PathParameters.
Import http utils.

Lemma digit_bound (c : ascii) (d : N) : strconv.digit c = Some d -> (d <= 9)%N.
Proof.
  unfold strconv.digit.
  destruct ((48 <=? N_of_ascii c)%N && (N_of_ascii c <=? 57)%N) eqn:E;
    [|discriminate].
  apply andb_prop in E. destruct E as [E1 E2].
  apply N.leb_le in E1, E2. intros [= <-]. lia.
Qed.

Lemma digits_all (s : string) (acc n : N) :
  strconv.digits s acc = Some n ->
  forall c, In c (list_ascii_of_string s) -> strconv.digit c <> None.
Proof.
  revert acc. induction s as [|a s IH]; cbn; intros acc H c Hin; [tauto|].
  destruct (strconv.digit a) as [d|] eqn:Ea; [|discriminate].
  destruct Hin as [<- | Hin]; [congruence | eapply IH; eauto].
Qed.

(** [ParseUint32] accepts exactly the non-empty strings of decimal
    digits whose value fits 32 bits: what it returns is at most 4294967295,
    the empty string, a sign, a space or any other character that is not a
    digit is refused, and so is every digit string whose value is larger. *)
Lemma ParseUint32_accepts_32_bit_decimals (s : string) :
  (forall n, strconv.ParseUint32 s = Ok n ->
     (n <= 4294967295)%N /\ s <> ""
     /\ (forall c, In c (list_ascii_of_string s) -> strconv.digit c <> None)
     /\ strconv.digits s 0 = Some n)
  /\ ((s = "" \/ exists c, In c (list_ascii_of_string s) /\ strconv.digit c = None)
      -> strconv.ParseUint32 s = Err (errors_New "strconv.ParseUint: invalid syntax"))
  /\ (forall n, strconv.digits s 0 = Some n -> (4294967295 < n)%N ->
        strconv.ParseUint32 s
        = Err (errors_New "strconv.ParseUint: value out of range")).
Proof.
  split; [|split].
  - intros n H. unfold strconv.ParseUint32 in H.
    destruct s as [|a s]; [discriminate|].
    destruct (strconv.digits (String a s) 0) as [m|] eqn:Ed; [|discriminate].
    destruct (m <=? strconv.maxUint32)%N eqn:Em; [|discriminate].
    injection H as <-. apply N.leb_le in Em. unfold strconv.maxUint32 in Em.
    repeat split; [exact Em | discriminate | eapply digits_all; eauto].
  - intros [-> | (c & Hin & Hc)]; [reflexivity|].
    unfold strconv.ParseUint32. destruct s as [|a s]; [destruct Hin|].
    destruct (strconv.digits (String a s) 0) as [m|] eqn:Ed; [|reflexivity].
    exfalso. eapply digits_all; eauto.
  - intros n Hd Hbig. unfold strconv.ParseUint32.
    destruct s as [|a s].
    + cbn in Hd. injection Hd as <-. lia.
    + rewrite Hd. unfold strconv.maxUint32.
      assert ((n <=? 4294967295)%N = false) as -> by (apply N.leb_gt; exact Hbig).
      reflexivity.
Qed.

Context {VUpdateUser : Validator UpdateUserRequest.t}.
Context {VUpdateRestaurant : Validator UpdateRestaurantRequest.t}.
Variable HashPassword : string -> result string.

(** X2.  A path id that is not a 32-bit decimal is answered 400 Bad Request
    by every handler that takes one, before the body, the principal or the
    database are looked at: the answer is the same whoever asks and
    whatever the body and the database are, and nothing is written. *)
Theorem malformed_id_is_bad_request
    (now : Z) (db : DB) (e : error) (B : Type) (c : echo.Context B)
    (cu : echo.Context UpdateUserRequest.t)
    (cr : echo.Context UpdateRestaurantRequest.t) :
  strconv.ParseUint32 (echo.Param c "id") = Err e ->
  strconv.ParseUint32 (echo.Param cu "id") = Err e ->
  strconv.ParseUint32 (echo.Param cr "id") = Err e ->
  let bad what := JSON StatusBadRequest (NewErrorResponse what (Error e)) in
  UserHandler_GetUser now c db = (bad "Invalid user ID", db)
  /\ UserHandler_UpdateUser HashPassword now cu db = (bad "Invalid user ID", db)
  /\ UserHandler_DeleteUser now c db = (bad "Invalid user ID", db)
  /\ RestaurantHandler_UpdateRestaurant now cr db = (bad "Invalid restaurant ID", db)
  /\ RestaurantHandler_DeleteRestaurant now c db = (bad "Invalid restaurant ID", db)
  /\ (forall userID, strconv.ParseUint32 (echo.Param c "userId") = Ok userID ->
        RestaurantHandler_GetUserRestaurant now c db
        = (bad "Invalid restaurant ID", db)).
Proof.
  intros Hc Hcu Hcr bad.
  unfold UserHandler_GetUser, UserHandler_UpdateUser, UserHandler_DeleteUser,
    RestaurantHandler_UpdateRestaurant, RestaurantHandler_DeleteRestaurant,
    RestaurantHandler_GetUserRestaurant.
  rewrite Hc, Hcu, Hcr. repeat split. intros userID ->. reflexivity.
Qed.

End PathParameters.

(** ** The JWT middleware *)

Section Middleware.
Import http middleware.
Variable ParseUnverified : string -> option Token.
Variable Verify : SigningMethod -> string -> string -> bool.
Variable jwtSecret : string.

Lemma ParseWithClaims_ok (now : Z) (tokenString : string) (parsed : Token) :
  jwt.ParseWithClaims ParseUnverified Verify now tokenString
    (AuthService.keyFunc jwtSecret) = Ok parsed ->
  exists token alg,
    ParseUnverified tokenString = Some token
    /\ parsed = set_Valid true token
    /\ Method token = SigningMethodHMAC alg
    /\ jwt.Claims_Valid (Claims token) now = None
    /\ Verify (Method token) (Raw token) jwtSecret = true.
Proof.
  unfold jwt.ParseWithClaims, AuthService.keyFunc.
  destruct (ParseUnverified tokenString) as [token|]; [|discriminate].
  destruct (Method token) as [alg|alg] eqn:Hm; [|discriminate].
  destruct (jwt.Claims_Valid (Claims token) now) eqn:Hc; [discriminate|].
  destruct (Verify (SigningMethodHMAC alg) (Raw token) jwtSecret) eqn:Hv;
    [|discriminate].
  intros [= <-]. exists token, alg. rewrite Hm. repeat split; auto.
Qed.

(** X3.  The middleware answers 401 and does not run the handler (the
    answer does not depend on it and the database is untouched) when the
    Authorization header is missing, when it does not start with "Bearer ",
    when the token cannot be decoded, and when the token names a signing
    method that is not an HMAC, whether or not its signature would verify. *)
Theorem middleware_stops_malformed_credentials
    (now : Z) (B : Type) (c : echo.Context B) (db : DB) :
  echo.Authorization c = ""
  \/ String.prefix "Bearer " (echo.Authorization c) = false
  \/ (exists tokenString,
        echo.Authorization c = "Bearer " ++ tokenString
        /\ (ParseUnverified tokenString = None
            \/ exists token alg,
                 ParseUnverified tokenString = Some token
                 /\ Method token = SigningMethodOther alg)) ->
  exists message,
    forall next : HandlerFunc B,
      JWT ParseUnverified Verify jwtSecret next now c db
      = (NewHTTPError StatusUnauthorized message, db).
Proof.
  unfold JWT. intros [H | [H | (ts & H & Hts)]].
  - rewrite H. eexists. intros next. reflexivity.
  - rewrite H. destruct (String.eqb (echo.Authorization c) "");
      eexists; intros next; reflexivity.
  - rewrite H.
    assert (String.eqb ("Bearer " ++ ts) "" = false) as -> by reflexivity.
    rewrite prefix_app, TrimPrefix_app. cbn [negb].
    unfold jwt.ParseWithClaims, AuthService.keyFunc.
    destruct Hts as [-> | (token & alg & -> & ->)];
      eexists; intros next; reflexivity.
Qed.

(** X4.  On a request with a bearer token the middleware and
    [AuthService.ValidateToken] decide alike: either both refuse the token
    (the middleware with 401, leaving the database alone), or the token is
    decoded, HMAC-signed under the secret and valid at that time,
    [ValidateToken] returns its claims and the middleware hands the request
    to the handler with that token, marked valid, in its context. *)
Theorem middleware_agrees_with_ValidateToken
    (now : Z) (tokenString : string) (B : Type) (next : HandlerFunc B)
    (c : echo.Context B) (db : DB) :
  echo.Authorization c = "Bearer " ++ tokenString ->
  let validated :=
    AuthService.ValidateToken ParseUnverified Verify jwtSecret now tokenString in
  let answered := JWT ParseUnverified Verify jwtSecret next now c db in
  (exists e, validated = Err e
     /\ answered = (NewHTTPError StatusUnauthorized
                      ("Invalid or expired token: " ++ Error e), db))
  \/ (exists token alg,
        ParseUnverified tokenString = Some token
        /\ Method token = SigningMethodHMAC alg
        /\ jwt.Claims_Valid (Claims token) now = None
        /\ Verify (Method token) (Raw token) jwtSecret = true
        /\ validated = Ok (Claims token)
        /\ answered = next now (echo.Set_user c (set_Valid true token)) db
        /\ AuthService.ExtractTokenClaims
             (echo.Set_user c (set_Valid true token))
           = Some (Ok (Claims token))).
Proof.
  intros H validated answered. subst validated answered.
  unfold AuthService.ValidateToken, JWT. rewrite H.
  assert (String.eqb ("Bearer " ++ tokenString) "" = false) as -> by reflexivity.
  rewrite prefix_app, TrimPrefix_app. cbn [negb].
  destruct (jwt.ParseWithClaims ParseUnverified Verify now tokenString
              (AuthService.keyFunc jwtSecret)) as [parsed|e] eqn:Hp.
  - right. apply ParseWithClaims_ok in Hp.
    destruct Hp as (token & alg & Hparse & -> & Hm & Hvalid & Hsig).
    exists token, alg. cbn. repeat split; auto.
  - left. exists e. split; reflexivity.
Qed.

End Middleware.

(** ** Registration, login and the life of a token *)

Section Credentials.
Import http utils.
Variable HashPassword : string -> result string.
Variable CheckPasswordHash : string -> string -> bool.
Variable ParseUnverified : string -> option Token.
Variable Verify : SigningMethod -> string -> string -> bool.
Variable SignedString : SigningMethod -> JWTClaims -> string -> result string.
Variable jwtSecret : string.

Lemma First_none_iff {R : Type} (deleted_at : R -> option Z)
    (cond : R -> bool) (rows : list R) :
  gorm.First deleted_at cond rows = None
  <-> forall r, In r rows -> gorm.live deleted_at r = true -> cond r = false.
Proof.
  unfold gorm.First. split.
  - intros H r Hin Hl. apply (find_none _ _ H) in Hin.
    rewrite Hl, andb_true_r in Hin. exact Hin.
  - intros H. destruct (find _ rows) as [r|] eqn:E; [|reflexivity].
    apply find_some in E. destruct E as [Hin E]. apply andb_prop in E.
    destruct E as [Hc Hl]. rewrite (H r Hin Hl) in Hc. discriminate.
Qed.

Lemma First_append_only {R : Type} (deleted_at : R -> option Z)
    (cond : R -> bool) (rows : list R) (row : R) :
  gorm.First deleted_at cond rows = None ->
  cond row = true -> gorm.live deleted_at row = true ->
  gorm.First deleted_at cond (rows ++ [row]) = Some row.
Proof.
  unfold gorm.First. intros Hnone Hc Hl.
  induction rows as [|x rest IH]; cbn in *.
  - now rewrite Hc, Hl.
  - destruct (cond x && gorm.live deleted_at x); [discriminate | auto].
Qed.

Lemma GetByEmail_err (db : DB) (email : string) (e : error) :
  UserRepository.GetByEmail db email = Err e ->
  gorm.First User.DeletedAt (UserRepository.email_is email) (users db) = None.
Proof.
  unfold UserRepository.GetByEmail.
  destruct (gorm.First _ _ _); [discriminate | reflexivity].
Qed.

Lemma Register_ok_unused_email (db db' : DB) (now : Z)
    (request : RegisterUserRequest.t) (user : User.t) :
  AuthService.Register HashPassword db now request = (Ok user, db') ->
  gorm.First User.DeletedAt
    (UserRepository.email_is (RegisterUserRequest.Email request)) (users db)
  = None.
Proof.
  unfold AuthService.Register.
  destruct (UserRepository.GetByEmail db _) as [|e] eqn:E; [intros [=]|].
  intros _. eapply GetByEmail_err. exact E.
Qed.

Lemma Login_ok (db : DB) (now : Z) (request : LoginUserRequest.t)
    (user : User.t) (token : string) :
  AuthService.Login CheckPasswordHash SignedString jwtSecret db now request
  = Ok (user, token) ->
  UserRepository.GetByEmail db (LoginUserRequest.Email request) = Ok user
  /\ CheckPasswordHash (LoginUserRequest.Password request) (User.Password user)
     = true
  /\ SignedString SigningMethodHS256
       (mkClaims (User.ID user) (User.Email user) (User.Role user)
          (now + 86400) 0 0) jwtSecret
     = Ok token.
Proof.
  unfold AuthService.Login, AuthService.generateToken.
  destruct (UserRepository.GetByEmail db _) as [found|] eqn:Hf; [|discriminate].
  destruct (CheckPasswordHash _ _) eqn:Hc; cbn [negb]; [|discriminate].
  destruct (SignedString _ _ _) as [t|] eqn:Hs; [|discriminate].
  intros [= <- <-]. repeat split; auto.
Qed.

(** X5.  When the codec reads back and verifies what it signed for this
    login, the token a login returns is accepted by [ValidateToken], with
    the claims of the user, at every time up to and including 86400 seconds
    after the login, and refused as expired at every later time. *)
Theorem login_token_is_valid_for_24_hours
    (db : DB) (now : Z) (request : LoginUserRequest.t)
    (user : User.t) (tokenString : string) :
  (0 <= now)%Z ->
  AuthService.Login CheckPasswordHash SignedString jwtSecret db now request
  = Ok (user, tokenString) ->
  let claims :=
    mkClaims (User.ID user) (User.Email user) (User.Role user)
      (now + 86400) 0 0 in
  (forall s, SignedString SigningMethodHS256 claims jwtSecret = Ok s ->
     exists token,
       ParseUnverified s = Some token /\ Claims token = claims
       /\ Method token = SigningMethodHS256
       /\ Verify SigningMethodHS256 (Raw token) jwtSecret = true) ->
  forall later : Z,
    ((later <= now + 86400)%Z ->
     AuthService.ValidateToken ParseUnverified Verify jwtSecret later tokenString
     = Ok claims)
    /\ ((now + 86400 < later)%Z ->
        AuthService.ValidateToken ParseUnverified Verify jwtSecret later
          tokenString
        = Err (errors_New "token is expired")).
Proof.
  clear HashPassword.
  intros Hnow Hlogin claims Hcodec later.
  apply Login_ok in Hlogin. destruct Hlogin as (_ & _ & Hsign).
  destruct (Hcodec _ Hsign) as (token & Hparse & Hclaims & Hm & Hv).
  unfold AuthService.ValidateToken, jwt.ParseWithClaims, AuthService.keyFunc.
  rewrite Hparse, Hm, Hclaims. cbn [SigningMethodHS256].
  unfold jwt.Claims_Valid, jwt.verifyExp, jwt.verifyIat, jwt.verifyNbf.
  cbn [ExpiresAt IssuedAt NotBefore claims].
  assert ((now + 86400 =? 0)%Z = false) as -> by (apply Z.eqb_neq; lia).
  cbn [Z.eqb negb]. split; intros Hlater.
  - assert ((later <=? now + 86400)%Z = true) as -> by (apply Z.leb_le; lia).
    cbn [negb]. unfold SigningMethodHS256 in Hv |- *. rewrite Hv. cbn.
    now rewrite Hclaims.
  - assert ((later <=? now + 86400)%Z = false) as -> by (apply Z.leb_gt; lia).
    reflexivity.
Qed.

(** X6.  A user who has just registered can log in: when the hash of the
    registered password checks against that password, a login with the
    registered email and password finds exactly the registered user and
    fails only if signing the token fails; a password that does not check
    is refused with "invalid email or password". *)
Theorem register_then_login
    (db db' : DB) (now now' : Z) (request : RegisterUserRequest.t)
    (user : User.t) :
  AuthService.Register HashPassword db now request = (Ok user, db') ->
  (forall hash, HashPassword (RegisterUserRequest.Password request) = Ok hash ->
     CheckPasswordHash (RegisterUserRequest.Password request) hash = true) ->
  let login password :=
    AuthService.Login CheckPasswordHash SignedString jwtSecret db' now'
      (LoginUserRequest.mk (RegisterUserRequest.Email request) password) in
  login (RegisterUserRequest.Password request)
  = match AuthService.generateToken SignedString jwtSecret now' user with
    | Ok token => Ok (user, token)
    | Err err => Err err
    end
  /\ forall password,
       CheckPasswordHash password (User.Password user) = false ->
       login password = Err (errors_New "invalid email or password").
Proof.
  clear ParseUnverified Verify.
  intros Hreg Hhash login.
  pose proof (Register_ok_unused_email _ _ _ _ _ Hreg) as Hfree.
  apply (Register_ok HashPassword) in Hreg.
  destruct Hreg as (h & Hh & Huser & Hdb').
  assert (Hfound : UserRepository.GetByEmail db'
                     (RegisterUserRequest.Email request) = Ok user).
  { unfold UserRepository.GetByEmail. rewrite Hdb'. cbn [users with_users].
    rewrite (First_append_only User.DeletedAt _ _ user Hfree); [reflexivity| |].
    - rewrite Huser. unfold UserRepository.email_is. cbn. apply String.eqb_refl.
    - rewrite Huser. reflexivity. }
  subst login. unfold AuthService.Login. cbn [LoginUserRequest.Email
    LoginUserRequest.Password]. rewrite Hfound. split.
  - assert (CheckPasswordHash (RegisterUserRequest.Password request)
              (User.Password user) = true) as ->
      by (rewrite Huser; cbn; apply Hhash; exact Hh).
    reflexivity.
  - intros password ->. reflexivity.
Qed.

Lemma live_email_absent (rows : list User.t) (email : string) :
  gorm.First User.DeletedAt (UserRepository.email_is email) rows = None ->
  ~ In email (map User.Email (filter (gorm.live User.DeletedAt) rows)).
Proof.
  intros Hnone Hin. apply in_map_iff in Hin. destruct Hin as (r & Hr & Hin).
  apply filter_In in Hin. destruct Hin as [Hin Hl].
  rewrite First_none_iff in Hnone. specialize (Hnone r Hin Hl).
  unfold UserRepository.email_is in Hnone. rewrite Hr, String.eqb_refl in Hnone.
  discriminate.
Qed.

(** X7.  Registration keeps the emails of the live users distinct: if no
    two live users share an email before a registration, none do after it,
    whether it succeeds or fails. *)
Theorem Register_keeps_live_emails_unique
    (db : DB) (now : Z) (request : RegisterUserRequest.t) :
  live_emails_unique db ->
  live_emails_unique (snd (AuthService.Register HashPassword db now request)).
Proof.
  clear CheckPasswordHash ParseUnverified Verify SignedString jwtSecret.
  intros Hinv.
  destruct (AuthService.Register HashPassword db now request)
    as [[user|e] db'] eqn:Hreg; cbn [snd].
  - pose proof (Register_ok_unused_email _ _ _ _ _ Hreg) as Hfree.
    apply (Register_ok HashPassword) in Hreg.
    destruct Hreg as (h & _ & Huser & ->).
    unfold live_emails_unique in *. cbn [users with_users].
    rewrite filter_app, map_app.
    assert (Hl : gorm.live User.DeletedAt user = true)
      by (rewrite Huser; reflexivity).
    cbn [filter]. rewrite Hl. cbn [map].
    apply NoDup_app; [exact Hinv | repeat constructor; intros [] |].
    intros a Ha [<- | []]. apply live_email_absent in Hfree.
    apply Hfree. rewrite Huser in Ha. exact Ha.
  - apply (Register_err HashPassword) in Hreg. now subst db'.
Qed.

End Credentials.

(** ** User accounts *)

Section Accounts.
Import http utils middleware.
Variable HashPassword : string -> result string.
Variable CheckPasswordHash : string -> string -> bool.
Variable SignedString : SigningMethod -> JWTClaims -> string -> result string.
Variable jwtSecret : string.
Context {VRegister : Validator RegisterUserRequest.t}.
Context {VLogin : Validator LoginUserRequest.t}.
Context {VUpdateUser : Validator UpdateUserRequest.t}.

Lemma NoDup_map_eq {A C : Type} (f : A -> C) (l : list A) (x y : A) :
  NoDup (map f l) -> In x l -> In y l -> f x = f y -> x = y.
Proof.
  clear HashPassword CheckPasswordHash SignedString jwtSecret VRegister VLogin VUpdateUser.
  induction l as [|a l IH]; cbn; [tauto|].
  intros Hnd Hx Hy Hf. apply NoDup_cons_iff in Hnd. destruct Hnd as [Hna Hnd].
  destruct Hx as [-> | Hx], Hy as [-> | Hy]; auto.
  - exfalso. apply Hna. rewrite Hf. now apply in_map.
  - exfalso. apply Hna. rewrite <- Hf. now apply in_map.
Qed.

Lemma user_GetByID_Delete (db : DB) (now : Z) (id : N) :
  UserRepository.GetByID (snd (UserRepository.Delete db now id)) id
  = Err (errors_New "user not found").
Proof.
  unfold UserRepository.GetByID, UserRepository.Delete.
  cbn [snd users with_users]. unfold UserRepository.id_is.
  rewrite First_Delete_same; [reflexivity|]. intros r. reflexivity.
Qed.

Lemma user_GetByID_Delete_other (db : DB) (now : Z) (id id' : N) :
  id' <> id ->
  UserRepository.GetByID (snd (UserRepository.Delete db now id)) id'
  = UserRepository.GetByID db id'.
Proof.
  intros Hne. unfold UserRepository.GetByID, UserRepository.Delete.
  cbn [snd users with_users]. unfold UserRepository.id_is.
  rewrite First_Delete_other; [reflexivity | exact Hne |]. intros r. reflexivity.
Qed.

Lemma email_free_after_Delete (db : DB) (now : Z) (id : N) (u : User.t) :
  live_emails_unique db ->
  UserRepository.GetByID db id = Ok u ->
  gorm.First User.DeletedAt (UserRepository.email_is (User.Email u))
    (users (snd (UserRepository.Delete db now id)))
  = None.
Proof.
  clear HashPassword CheckPasswordHash SignedString jwtSecret VRegister VLogin VUpdateUser.
  intros Hinv Hget. apply user_GetByID_ok in Hget.
  destruct Hget as (Hid & Hlive & Hin).
  assert (Hul : gorm.live User.DeletedAt u = true)
    by (unfold gorm.live; now rewrite Hlive).
  apply First_none_iff. intros x Hx Hxl.
  unfold UserRepository.Delete in Hx. cbn [snd users with_users] in Hx.
  unfold gorm.Delete in Hx. apply in_map_iff in Hx.
  destruct Hx as (r & Hr & Hrin).
  destruct (N.eqb (User.ID r) id && gorm.live User.DeletedAt r) eqn:E.
  - subst x. discriminate Hxl.
  - subst x. unfold UserRepository.email_is.
    destruct (String.eqb (User.Email r) (User.Email u)) eqn:Ee; [|reflexivity].
    apply String.eqb_eq in Ee. exfalso.
    assert (r = u).
    { apply (NoDup_map_eq User.Email
               (filter (gorm.live User.DeletedAt) (users db))); auto;
        apply filter_In; auto. }
    subst r. rewrite Hid, N.eqb_refl, Hul in E. discriminate.
Qed.

(** X8.  Deleting an existing user, as that user or as an admin, answers
    200, leaves the restaurants table as it was and makes the account
    unusable: the user is no longer found by id, a second deletion is
    answered 404, and, the emails of live users being distinct, a login with
    the email of the deleted user fails with "invalid email or password"
    whatever the password. *)
Theorem deleted_user_cannot_log_in
    (now now' : Z) (db : DB) (id : N) (u : User.t) (token : Token)
    (B : Type) (c : echo.Context B) :
  strconv.ParseUint32 (echo.Param c "id") = Ok id ->
  echo.user c = Some token ->
  may_act (Claims token) id ->
  UserRepository.GetByID db id = Ok u ->
  live_emails_unique db ->
  let out := UserHandler_DeleteUser now c db in
  fst out = JSON StatusOK (NewSuccessResponse "User deleted successfully" nil_data)
  /\ restaurants (snd out) = restaurants db
  /\ UserRepository.GetByID (snd out) id = Err (errors_New "user not found")
  /\ UserHandler_DeleteUser now' c (snd out)
     = (JSON StatusNotFound
          (NewErrorResponse "User not found" "The requested user does not exist"),
        snd out)
  /\ forall password,
       AuthService.Login CheckPasswordHash SignedString jwtSecret (snd out) now'
         (LoginUserRequest.mk (User.Email u) password)
       = Err (errors_New "invalid email or password").
Proof.
  clear HashPassword VRegister VLogin VUpdateUser.
  intros Hp Hu Hmay Hget Hinv out.
  assert (Hpass : negb (N.eqb (UserID (Claims token)) id)
                  && negb (is_admin (Claims token)) = false).
  { unfold is_admin, AdminRole. destruct Hmay as [-> | ->].
    - now rewrite N.eqb_refl.
    - rewrite String.eqb_refl. apply andb_false_r. }
  assert (Hout : out = (JSON StatusOK
                          (NewSuccessResponse "User deleted successfully" nil_data),
                        snd (UserRepository.Delete db now id))).
  { subst out. unfold UserHandler_DeleteUser, AuthService.ExtractTokenClaims.
    rewrite Hp, Hu, Hpass. unfold UserService.DeleteUser. rewrite Hget.
    reflexivity. }
  rewrite Hout. cbn [fst snd].
  pose proof (user_GetByID_Delete db now id) as Hgone.
  split; [reflexivity|]. split; [reflexivity|]. split; [exact Hgone|]. split.
  - unfold UserHandler_DeleteUser, AuthService.ExtractTokenClaims.
    rewrite Hp, Hu, Hpass. unfold UserService.DeleteUser. rewrite Hgone.
    reflexivity.
  - intros password. unfold AuthService.Login, UserRepository.GetByEmail.
    cbn [LoginUserRequest.Email].
    rewrite (email_free_after_Delete db now id u Hinv Hget). reflexivity.
Qed.

(** X9.  Changing the email of a user to one that another live user has is
    refused: the service fails with "email already in use", the handler
    answers 500, and nothing is written, not even the other fields of the
    same request. *)
Theorem email_change_revalidates_uniqueness
    (now : Z) (db : DB) (id : N) (u other : User.t) (token : Token)
    (c : echo.Context UpdateUserRequest.t) (request : UpdateUserRequest.t) :
  strconv.ParseUint32 (echo.Param c "id") = Ok id ->
  echo.Bind c = Ok request ->
  validator_Struct request = None ->
  echo.user c = Some token ->
  may_act (Claims token) id ->
  (UpdateUserRequest.Role request = "" \/ Role (Claims token) = "admin") ->
  UserRepository.GetByID db id = Ok u ->
  UpdateUserRequest.Email request <> "" ->
  UpdateUserRequest.Email request <> User.Email u ->
  UserRepository.GetByEmail db (UpdateUserRequest.Email request) = Ok other ->
  User.ID other <> id ->
  UserService.UpdateUser HashPassword db now id request
  = (Err (errors_New "email already in use"), db)
  /\ UserHandler_UpdateUser HashPassword now c db
     = (JSON StatusInternalServerError
          (NewErrorResponse "Failed to update user" "email already in use"), db).
Proof.
  clear CheckPasswordHash SignedString jwtSecret VRegister VLogin.
  intros Hp Hb Hv Hu Hmay Hrole Hget Hne Hdiff Hother Hid.
  assert (Hsvc : UserService.UpdateUser HashPassword db now id request
                 = (Err (errors_New "email already in use"), db)).
  { unfold UserService.UpdateUser. rewrite Hget. cbv zeta.
    assert (User.Email
              (if nonempty (UpdateUserRequest.Name request)
               then User.set_Name (UpdateUserRequest.Name request) u else u)
            = User.Email u) as ->
      by (destruct (nonempty (UpdateUserRequest.Name request)); reflexivity).
    apply String.eqb_neq in Hne, Hdiff.
    assert (nonempty (UpdateUserRequest.Email request) = true) as ->
      by (unfold nonempty; now rewrite Hne).
    rewrite Hdiff. cbn [negb andb].
    rewrite Hother. apply N.eqb_neq in Hid. rewrite Hid. reflexivity. }
  split; [exact Hsvc|].
  unfold UserHandler_UpdateUser, AuthService.ExtractTokenClaims.
  rewrite Hp, Hb, Hv, Hu.
  assert (nonempty (UpdateUserRequest.Role request)
          && negb (is_admin (Claims token)) = false) as ->.
  { unfold nonempty, is_admin, AdminRole. destruct Hrole as [-> | ->].
    - reflexivity.
    - rewrite String.eqb_refl. apply andb_false_r. }
  assert (negb (N.eqb (UserID (Claims token)) id)
          && negb (is_admin (Claims token)) = false) as ->.
  { unfold is_admin, AdminRole. destruct Hmay as [-> | ->].
    - now rewrite N.eqb_refl.
    - rewrite String.eqb_refl. apply andb_false_r. }
  rewrite Hsvc. reflexivity.
Qed.

(** X10.  Whatever it sends, a principal that is not an admin cannot change
    or delete another user through the user endpoints: after its update or
    delete request every user with a different id is read back as before,
    and the restaurants table is as before. *)
Theorem non_admin_cannot_touch_other_users
    (now : Z) (db : DB) (token : Token)
    (cu : echo.Context UpdateUserRequest.t)
    (B : Type) (cd : echo.Context B) (id' : N) :
  echo.user cu = Some token ->
  echo.user cd = Some token ->
  Role (Claims token) <> "admin" ->
  id' <> UserID (Claims token) ->
  let upd := snd (UserHandler_UpdateUser HashPassword now cu db) in
  let del := snd (UserHandler_DeleteUser now cd db) in
  UserRepository.GetByID upd id' = UserRepository.GetByID db id'
  /\ restaurants upd = restaurants db
  /\ UserRepository.GetByID del id' = UserRepository.GetByID db id'
  /\ restaurants del = restaurants db.
Proof.
  clear CheckPasswordHash SignedString jwtSecret VRegister VLogin.
  intros Hcu Hcd Hrole Hother upd del. subst upd del.
  apply String.eqb_neq in Hrole.
  unfold UserHandler_UpdateUser, UserHandler_DeleteUser,
    AuthService.ExtractTokenClaims, is_admin, AdminRole.
  rewrite Hcu, Hcd, Hrole. cbn [negb].
  assert (Hupd :
    forall id, N.eqb (UserID (Claims token)) id = true ->
      forall request,
      let out := UserService.UpdateUser HashPassword db now id request in
      UserRepository.GetByID (snd out) id' = UserRepository.GetByID db id'
      /\ restaurants (snd out) = restaurants db).
  { intros id Hid request out. apply N.eqb_eq in Hid. subst out.
    destruct (UserService.UpdateUser HashPassword db now id request)
      as [[u1|e] db1] eqn:Hsvc; cbn [snd].
    - apply (UpdateUser_ok HashPassword) in Hsvc.
      destruct Hsvc as (u0 & _ & _ & _ & _ & _ & _ & _ & _ & _ & _ & _
                        & Hothers & Hrest).
      split; [apply Hothers; congruence | exact Hrest].
    - apply (UpdateUser_err HashPassword) in Hsvc. subst db1. auto. }
  split; [|split; [|split]].
  - destruct (strconv.ParseUint32 (echo.Param cu "id")) as [id|]; [|reflexivity].
    destruct (echo.Bind cu) as [request|]; [|reflexivity].
    destruct (validator_Struct request); [reflexivity|].
    destruct (nonempty (UpdateUserRequest.Role request)); cbn [andb];
      [reflexivity|].
    destruct (N.eqb (UserID (Claims token)) id) eqn:Hid; cbn [negb andb];
      [|reflexivity].
    destruct (Hupd id Hid request) as [H _].
    destruct (UserService.UpdateUser HashPassword db now id request)
      as [[u1|e] db1]; [exact H|].
    destruct (is_ErrUserNotFound e); exact H.
  - destruct (strconv.ParseUint32 (echo.Param cu "id")) as [id|]; [|reflexivity].
    destruct (echo.Bind cu) as [request|]; [|reflexivity].
    destruct (validator_Struct request); [reflexivity|].
    destruct (nonempty (UpdateUserRequest.Role request)); cbn [andb];
      [reflexivity|].
    destruct (N.eqb (UserID (Claims token)) id) eqn:Hid; cbn [negb andb];
      [|reflexivity].
    destruct (Hupd id Hid request) as [_ H].
    destruct (UserService.UpdateUser HashPassword db now id request)
      as [[u1|e] db1]; [exact H|].
    destruct (is_ErrUserNotFound e); exact H.
  - destruct (strconv.ParseUint32 (echo.Param cd "id")) as [id|]; [|reflexivity].
    destruct (N.eqb (UserID (Claims token)) id) eqn:Hid; cbn [negb andb];
      [|reflexivity].
    apply N.eqb_eq in Hid. unfold UserService.DeleteUser.
    destruct (UserRepository.GetByID db id); [|reflexivity].
    apply user_GetByID_Delete_other. congruence.
  - destruct (strconv.ParseUint32 (echo.Param cd "id")) as [id|]; [|reflexivity].
    destruct (N.eqb (UserID (Claims token)) id) eqn:Hid; cbn [negb andb];
      [|reflexivity].
    unfold UserService.DeleteUser.
    destruct (UserRepository.GetByID db id); reflexivity.
Qed.

End Accounts.

(** ** Restaurants *)

Section Restaurants.
Import http utils middleware.
Context {VCreateRestaurant : Validator CreateRestaurantRequest.t}.
Context {VUpdateRestaurant : Validator UpdateRestaurantRequest.t}.

Lemma restaurant_GetByID_Delete_other (db : DB) (now : Z) (id id' : N) :
  id' <> id ->
  RestaurantRepository.GetByID (snd (RestaurantRepository.Delete db now id)) id'
  = RestaurantRepository.GetByID db id'.
Proof.
  intros Hne. unfold RestaurantRepository.GetByID, RestaurantRepository.Delete.
  cbn [snd restaurants with_restaurants]. unfold RestaurantRepository.id_is.
  rewrite First_Delete_other; [reflexivity | exact Hne |]. intros r. reflexivity.
Qed.

Lemma restaurant_GetByID_created (db : DB) (row : Restaurant.t) :
  Restaurant.ID row = gorm.next_id Restaurant.ID (restaurants db) ->
  Restaurant.DeletedAt row = None ->
  RestaurantRepository.GetByID
    (with_restaurants (restaurants db ++ [row]) db) (Restaurant.ID row)
  = Ok row.
Proof.
  intros Hid Hlive. unfold RestaurantRepository.GetByID, RestaurantRepository.id_is.
  cbn [restaurants with_restaurants].
  rewrite (First_append_fresh Restaurant.ID Restaurant.DeletedAt
             (Restaurant.ID row)).
  - reflexivity.
  - reflexivity.
  - unfold gorm.live. now rewrite Hlive.
  - intros r Hin Heq.
    apply (next_id_above Restaurant.ID Restaurant.DeletedAt) in Hin. lia.
Qed.

Lemma restaurant_check (owner : N) (principal : JWTClaims) :
  may_act principal owner ->
  negb (N.eqb owner (UserID principal))
  && negb (String.eqb (Role principal) "admin") = false.
Proof. intros H. apply allowed_iff. exact H. Qed.

(** X11.  Whatever it sends, a principal that is not an admin cannot change
    or delete a restaurant owned by somebody else: after its update or delete
    request every such restaurant is read back as before, and the users
    table is as before. *)
Theorem non_admin_cannot_touch_foreign_restaurants
    (now : Z) (db : DB) (token : Token)
    (cu : echo.Context UpdateRestaurantRequest.t)
    (B : Type) (cd : echo.Context B) (id' : N) (r : Restaurant.t) :
  echo.user cu = Some token ->
  echo.user cd = Some token ->
  Role (Claims token) <> "admin" ->
  RestaurantRepository.GetByID db id' = Ok r ->
  Restaurant.UserID r <> UserID (Claims token) ->
  let upd := snd (RestaurantHandler_UpdateRestaurant now cu db) in
  let del := snd (RestaurantHandler_DeleteRestaurant now cd db) in
  RestaurantRepository.GetByID upd id' = Ok r /\ users upd = users db
  /\ RestaurantRepository.GetByID del id' = Ok r /\ users del = users db.
Proof.
  intros Hcu Hcd Hrole Hr Hforeign upd del. subst upd del.
  apply String.eqb_neq in Hrole.
  unfold RestaurantHandler_UpdateRestaurant, RestaurantHandler_DeleteRestaurant,
    AuthService.ExtractTokenClaims,
    RestaurantService.GetRestaurantByIDWithoutUserCheck.
  rewrite Hcu, Hcd, Hrole. cbn [negb].
  split; [|split; [|split]].
  - destruct (strconv.ParseUint32 (echo.Param cu "id")) as [id|]; [|exact Hr].
    destruct (echo.Bind cu) as [request|]; [|exact Hr].
    destruct (validator_Struct request); [exact Hr|].
    destruct (RestaurantRepository.GetByID db id) as [target|] eqn:Ht;
      [|exact Hr].
    destruct (N.eqb (Restaurant.UserID target) (UserID (Claims token))) eqn:Ho;
      cbn [negb andb]; [|exact Hr].
    apply N.eqb_eq in Ho.
    destruct (UpdateRestaurant_found db now id request target Ht)
      as (r1 & db1 & -> & _ & Hothers & _). cbn [snd].
    rewrite Hothers; [exact Hr|]. intros ->. congruence.
  - destruct (strconv.ParseUint32 (echo.Param cu "id")) as [id|]; [|reflexivity].
    destruct (echo.Bind cu) as [request|]; [|reflexivity].
    destruct (validator_Struct request); [reflexivity|].
    destruct (RestaurantRepository.GetByID db id) as [target|] eqn:Ht;
      [|reflexivity].
    destruct (N.eqb (Restaurant.UserID target) (UserID (Claims token)));
      cbn [negb andb]; [|reflexivity].
    destruct (UpdateRestaurant_found db now id request target Ht)
      as (r1 & db1 & -> & _ & _ & Husers & _). exact Husers.
  - destruct (strconv.ParseUint32 (echo.Param cd "id")) as [id|]; [|exact Hr].
    destruct (RestaurantRepository.GetByID db id) as [target|] eqn:Ht;
      [|exact Hr].
    destruct (N.eqb (Restaurant.UserID target) (UserID (Claims token))) eqn:Ho;
      cbn [negb andb]; [|exact Hr].
    apply N.eqb_eq in Ho. unfold RestaurantService.DeleteRestaurant.
    rewrite Ht. cbn [RestaurantRepository.Delete snd].
    pose proof (restaurant_GetByID_Delete_other db now id id') as Hother.
    cbn [RestaurantRepository.Delete snd] in Hother.
    rewrite Hother; [exact Hr|]. intros ->. congruence.
  - destruct (strconv.ParseUint32 (echo.Param cd "id")) as [id|]; [|reflexivity].
    destruct (RestaurantRepository.GetByID db id) as [target|] eqn:Ht;
      [|reflexivity].
    destruct (N.eqb (Restaurant.UserID target) (UserID (Claims token)));
      cbn [negb andb]; [|reflexivity].
    unfold RestaurantService.DeleteRestaurant. rewrite Ht. reflexivity.
Qed.

Lemma Delete_keeps_stamped_row {R : Type} (pk : R -> N)
    (deleted_at : R -> option Z) (stamp : R -> R) (id : N)
    (rows : list R) (r : R) :
  In r rows -> pk r = id -> gorm.live deleted_at r = true ->
  In (stamp r) (gorm.Delete pk deleted_at stamp id rows)
  /\ List.length (gorm.Delete pk deleted_at stamp id rows) = List.length rows.
Proof.
  intros Hin Hpk Hl. unfold gorm.Delete. split; [|apply length_map].
  apply in_map_iff. exists r. split; [|exact Hin].
  now rewrite Hpk, N.eqb_refl, Hl.
Qed.

(** X12.  Deleting a restaurant, as its owner or as an admin, answers 200 and
    only marks the row: the table keeps its length and holds the row with
    its deletion time set and nothing else changed, the users table is as
    before, the restaurant is no longer found by id, and a second deletion
    is answered 404 and writes nothing. *)
Theorem restaurant_delete_is_soft_and_not_repeatable
    (now now' : Z) (db : DB) (id : N) (r : Restaurant.t) (token : Token)
    (B : Type) (c : echo.Context B) :
  strconv.ParseUint32 (echo.Param c "id") = Ok id ->
  echo.user c = Some token ->
  RestaurantRepository.GetByID db id = Ok r ->
  may_act (Claims token) (Restaurant.UserID r) ->
  let out := RestaurantHandler_DeleteRestaurant now c db in
  fst out = JSON StatusOK
              (NewSuccessResponse "Restaurant deleted successfully" nil_data)
  /\ users (snd out) = users db
  /\ List.length (restaurants (snd out)) = List.length (restaurants db)
  /\ In (Restaurant.set_DeletedAt (Some now) r) (restaurants (snd out))
  /\ RestaurantRepository.GetByID (snd out) id
     = Err (errors_New "restaurant not found")
  /\ RestaurantHandler_DeleteRestaurant now' c (snd out)
     = (restaurant_not_found, snd out).
Proof.
  intros Hp Hu Hget Hmay out.
  assert (Hout : out = (JSON StatusOK
                          (NewSuccessResponse "Restaurant deleted successfully"
                             nil_data),
                        snd (RestaurantRepository.Delete db now id))).
  { subst out.
    unfold RestaurantHandler_DeleteRestaurant, AuthService.ExtractTokenClaims,
      RestaurantService.GetRestaurantByIDWithoutUserCheck,
      RestaurantService.DeleteRestaurant.
    rewrite Hp, Hu, Hget, (restaurant_check _ _ Hmay). reflexivity. }
  rewrite Hout. cbn [fst snd].
  pose proof (restaurant_GetByID_Delete db now id) as Hgone.
  destruct (restaurant_GetByID_ok _ _ _ Hget) as (Hid & Hlive & Hin).
  destruct (Delete_keeps_stamped_row Restaurant.ID Restaurant.DeletedAt
              (Restaurant.set_DeletedAt (Some now)) id (restaurants db) r
              Hin Hid) as [Hkept Hlen].
  { unfold gorm.live. now rewrite Hlive. }
  repeat split; auto.
  unfold RestaurantHandler_DeleteRestaurant, AuthService.ExtractTokenClaims,
    RestaurantService.GetRestaurantByIDWithoutUserCheck.
  rewrite Hp, Hu, Hgone. reflexivity.
Qed.

Lemma UpdateRestaurant_reads_restaurants_only (db1 db2 : DB) (now : Z) (id : N)
    (request : UpdateRestaurantRequest.t) :
  restaurants db1 = restaurants db2 ->
  fst (RestaurantService.UpdateRestaurant db1 now id request)
  = fst (RestaurantService.UpdateRestaurant db2 now id request)
  /\ restaurants (snd (RestaurantService.UpdateRestaurant db1 now id request))
     = restaurants (snd (RestaurantService.UpdateRestaurant db2 now id request)).
Proof.
  intros H. unfold RestaurantService.UpdateRestaurant,
    RestaurantRepository.GetByID, RestaurantRepository.Update.
  rewrite H.
  destruct (gorm.First _ _ _); cbn [fst snd restaurants with_restaurants];
    rewrite ?H; auto.
Qed.

(** X13.  Deleting a user neither removes nor hides that user's restaurants
    from the write endpoints and revokes nothing: after a successful
    deletion every restaurant update and delete request, the deleted user's
    own included, is answered as it would have been before and writes the
    same restaurants table, while listing the restaurants of the deleted
    user is answered 404 "User not found" even for an admin. *)
Theorem user_deletion_does_not_reach_restaurants
    (now now' : Z) (db : DB) (uid : N) (u : User.t) (token : Token)
    (B : Type) (cd : echo.Context B)
    (cr : echo.Context UpdateRestaurantRequest.t)
    (B' : Type) (cr' : echo.Context B')
    (B'' : Type) (cl : echo.Context B'') (viewer : Token) :
  strconv.ParseUint32 (echo.Param cd "id") = Ok uid ->
  echo.user cd = Some token ->
  may_act (Claims token) uid ->
  UserRepository.GetByID db uid = Ok u ->
  strconv.ParseUint32 (echo.Param cl "userId") = Ok uid ->
  echo.user cl = Some viewer ->
  may_act (Claims viewer) uid ->
  let db' := snd (UserHandler_DeleteUser now cd db) in
  restaurants db' = restaurants db
  /\ fst (RestaurantHandler_UpdateRestaurant now' cr db')
     = fst (RestaurantHandler_UpdateRestaurant now' cr db)
  /\ restaurants (snd (RestaurantHandler_UpdateRestaurant now' cr db'))
     = restaurants (snd (RestaurantHandler_UpdateRestaurant now' cr db))
  /\ fst (RestaurantHandler_DeleteRestaurant now' cr' db')
     = fst (RestaurantHandler_DeleteRestaurant now' cr' db)
  /\ restaurants (snd (RestaurantHandler_DeleteRestaurant now' cr' db'))
     = restaurants (snd (RestaurantHandler_DeleteRestaurant now' cr' db))
  /\ RestaurantHandler_GetUserRestaurants now' cl db'
     = (JSON StatusNotFound
          (NewErrorResponse "User not found" "The requested user does not exist"),
        db').
Proof.
  intros Hp Hu Hmay Hget Hpl Hul Hview db'.
  assert (Hpass : forall t, may_act (Claims t) uid ->
            negb (N.eqb (UserID (Claims t)) uid)
            && negb (String.eqb (Role (Claims t)) "admin") = false).
  { intros t [-> | ->]; [now rewrite N.eqb_refl|].
    rewrite String.eqb_refl. apply andb_false_r. }
  assert (Hdb' : db' = snd (UserRepository.Delete db now uid)).
  { subst db'. unfold UserHandler_DeleteUser, AuthService.ExtractTokenClaims,
      is_admin, AdminRole.
    rewrite Hp, Hu, (Hpass _ Hmay). unfold UserService.DeleteUser.
    rewrite Hget. reflexivity. }
  assert (Hrest : restaurants db' = restaurants db) by (rewrite Hdb'; reflexivity).
  split; [exact Hrest|].
  assert (Hget_same : forall id, RestaurantRepository.GetByID db' id
                                 = RestaurantRepository.GetByID db id).
  { intros id. unfold RestaurantRepository.GetByID. now rewrite Hrest. }
  split; [|split; [|split; [|split]]].
  - unfold RestaurantHandler_UpdateRestaurant,
      RestaurantService.GetRestaurantByIDWithoutUserCheck.
    destruct (strconv.ParseUint32 (echo.Param cr "id")) as [id|]; [|reflexivity].
    destruct (echo.Bind cr) as [request|]; [|reflexivity].
    destruct (validator_Struct request); [reflexivity|].
    destruct (AuthService.ExtractTokenClaims cr) as [[claims|e]|];
      try reflexivity.
    rewrite Hget_same.
    destruct (RestaurantRepository.GetByID db id); [|reflexivity].
    destruct (negb _ && negb _); [reflexivity|].
    destruct (UpdateRestaurant_reads_restaurants_only db' db now' id request Hrest)
      as [Hfst _].
    destruct (RestaurantService.UpdateRestaurant db' now' id request) as [r1 d1],
             (RestaurantService.UpdateRestaurant db now' id request) as [r2 d2].
    cbn [fst] in Hfst. subst r2. destruct r1 as [x|e]; [reflexivity|].
    destruct (is_ErrRestaurantNotFound e); reflexivity.
  - unfold RestaurantHandler_UpdateRestaurant,
      RestaurantService.GetRestaurantByIDWithoutUserCheck.
    destruct (strconv.ParseUint32 (echo.Param cr "id")) as [id|]; [|exact Hrest].
    destruct (echo.Bind cr) as [request|]; [|exact Hrest].
    destruct (validator_Struct request); [exact Hrest|].
    destruct (AuthService.ExtractTokenClaims cr) as [[claims|e]|];
      try exact Hrest.
    rewrite Hget_same.
    destruct (RestaurantRepository.GetByID db id); [|exact Hrest].
    destruct (negb _ && negb _); [exact Hrest|].
    destruct (UpdateRestaurant_reads_restaurants_only db' db now' id request Hrest)
      as [Hfst Hsnd].
    destruct (RestaurantService.UpdateRestaurant db' now' id request) as [r1 d1],
             (RestaurantService.UpdateRestaurant db now' id request) as [r2 d2].
    cbn [fst snd] in Hfst, Hsnd. subst r2. destruct r1 as [x|e]; [exact Hsnd|].
    destruct (is_ErrRestaurantNotFound e); exact Hsnd.
  - unfold RestaurantHandler_DeleteRestaurant,
      RestaurantService.GetRestaurantByIDWithoutUserCheck,
      RestaurantService.DeleteRestaurant.
    destruct (strconv.ParseUint32 (echo.Param cr' "id")) as [id|]; [|reflexivity].
    destruct (AuthService.ExtractTokenClaims cr') as [[claims|e]|];
      try reflexivity.
    rewrite !Hget_same.
    destruct (RestaurantRepository.GetByID db id); [|reflexivity].
    destruct (negb _ && negb _); reflexivity.
  - unfold RestaurantHandler_DeleteRestaurant,
      RestaurantService.GetRestaurantByIDWithoutUserCheck,
      RestaurantService.DeleteRestaurant.
    destruct (strconv.ParseUint32 (echo.Param cr' "id")) as [id|]; [|exact Hrest].
    destruct (AuthService.ExtractTokenClaims cr') as [[claims|e]|];
      try exact Hrest.
    rewrite !Hget_same.
    destruct (RestaurantRepository.GetByID db id); [|exact Hrest].
    destruct (negb _ && negb _); [exact Hrest|].
    cbn [RestaurantRepository.Delete snd restaurants with_restaurants].
    now rewrite Hrest.
  - unfold RestaurantHandler_GetUserRestaurants, AuthService.ExtractTokenClaims,
      RestaurantService.GetRestaurantsByUserID.
    rewrite Hpl, Hul, (Hpass _ Hview), Hdb'.
    pose proof (user_GetByID_Delete db now uid) as Hgone.
    rewrite Hgone. reflexivity.
Qed.

(** X14.  A restaurant is created for the principal and for nobody else:
    when the principal's user exists the answer is 201, the new row carries
    the fields of the request, the principal's id as owner, a fresh id and
    the current time, it is appended to the table, the users table is
    untouched, and the row is read back under the principal's id; when the
    principal's user does not exist the answer is 404 and nothing is
    written. *)
Theorem created_restaurant_belongs_to_principal
    (now : Z) (db : DB) (token : Token)
    (c : echo.Context CreateRestaurantRequest.t)
    (request : CreateRestaurantRequest.t) :
  echo.Bind c = Ok request ->
  validator_Struct request = None ->
  echo.user c = Some token ->
  let principal := UserID (Claims token) in
  let out := RestaurantHandler_CreateRestaurant now c db in
  match UserRepository.GetByID db principal with
  | Ok _ =>
      let row :=
        Restaurant.mk (gorm.next_id Restaurant.ID (restaurants db))
          (CreateRestaurantRequest.Name request)
          (CreateRestaurantRequest.Description request)
          (CreateRestaurantRequest.Address request)
          (CreateRestaurantRequest.Phone request)
          principal now now None in
      fst out = JSON StatusCreated
                  (NewSuccessResponse "Restaurant created successfully"
                     (restaurant_data (Restaurant_ToResponse row)))
      /\ restaurants (snd out) = (restaurants db ++ [row])%list
      /\ users (snd out) = users db
      /\ (forall r, In r (restaurants db) -> Restaurant.ID r <> Restaurant.ID row)
      /\ RestaurantService.GetRestaurantByID (snd out) (Restaurant.ID row) principal
         = Ok row
  | Err _ =>
      out = (JSON StatusNotFound
               (NewErrorResponse "User not found" "The user does not exist"), db)
  end.
Proof.
  intros Hb Hv Hu principal out. subst out.
  unfold RestaurantHandler_CreateRestaurant, AuthService.ExtractTokenClaims,
    RestaurantService.CreateRestaurant.
  rewrite Hb, Hv, Hu. fold principal.
  destruct (UserRepository.GetByID db principal) as [u|e] eqn:Hg; [|reflexivity].
  cbv zeta. cbn [RestaurantRepository.Create fst snd restaurants users
                 with_restaurants Restaurant.Name Restaurant.Description
                 Restaurant.Address Restaurant.Phone Restaurant.UserID
                 Restaurant.ID].
  repeat split.
  - intros r Hin Heq.
    apply (next_id_above Restaurant.ID Restaurant.DeletedAt) in Hin. lia.
  - unfold RestaurantService.GetRestaurantByID.
    assert (UserRepository.GetByID
              (with_restaurants
                 (restaurants db ++
                  [Restaurant.mk (gorm.next_id Restaurant.ID (restaurants db))
                     (CreateRestaurantRequest.Name request)
                     (CreateRestaurantRequest.Description request)
                     (CreateRestaurantRequest.Address request)
                     (CreateRestaurantRequest.Phone request)
                     principal now now None]) db) principal = Ok u) as ->
      by exact Hg.
    match goal with
    | |- context [RestaurantRepository.GetByID (with_restaurants (_ ++ [?row]) _) _] =>
        pose proof (restaurant_GetByID_created db row eq_refl eq_refl) as Hrow;
        cbn [Restaurant.ID] in Hrow; rewrite Hrow
    end.
    cbn [Restaurant.UserID]. now rewrite N.eqb_refl.
Qed.

(** X15.  For the user itself or an admin, listing the restaurants of an
    existing user answers 200 with exactly the live restaurants that user
    owns, in table order: a restaurant is listed when and only when it is in
    the table, is owned by that user and is not deleted.  Nothing is
    written. *)
Theorem listing_shows_exactly_the_users_live_restaurants
    (now : Z) (db : DB) (uid : N) (u : User.t) (token : Token)
    (B : Type) (c : echo.Context B) :
  strconv.ParseUint32 (echo.Param c "userId") = Ok uid ->
  echo.user c = Some token ->
  may_act (Claims token) uid ->
  UserRepository.GetByID db uid = Ok u ->
  exists listed,
    RestaurantHandler_GetUserRestaurants now c db
    = (JSON StatusOK
         (NewSuccessResponse "Restaurants retrieved successfully"
            (restaurants_data (map Restaurant_ToResponse listed))), db)
    /\ listed
       = filter (fun r => N.eqb (Restaurant.UserID r) uid
                          && gorm.live Restaurant.DeletedAt r) (restaurants db)
    /\ forall r, In r listed
                 <-> In r (restaurants db) /\ Restaurant.UserID r = uid
                     /\ Restaurant.DeletedAt r = None.
Proof.
  intros Hp Hu Hmay Hget.
  eexists. split; [|split; [reflexivity|]].
  - unfold RestaurantHandler_GetUserRestaurants, AuthService.ExtractTokenClaims,
      RestaurantService.GetRestaurantsByUserID, RestaurantRepository.GetByUserID.
    rewrite Hp, Hu, Hget.
    assert (negb (N.eqb (UserID (Claims token)) uid)
            && negb (String.eqb (Role (Claims token)) "admin") = false) as ->.
    { destruct Hmay as [-> | ->]; [now rewrite N.eqb_refl|].
      rewrite String.eqb_refl. apply andb_false_r. }
    reflexivity.
  - intros r. rewrite filter_In, andb_true_iff, N.eqb_eq. unfold gorm.live.
    destruct (Restaurant.DeletedAt r); intuition congruence.
Qed.

End Restaurants.

(** ** All handlers *)

Section Frames.
Import http utils middleware.
Variable HashPassword : string -> result string.
Variable CheckPasswordHash : string -> string -> bool.
Variable SignedString : SigningMethod -> JWTClaims -> string -> result string.
Variable jwtSecret : string.
Context {VRegister : Validator RegisterUserRequest.t}.
Context {VLogin : Validator LoginUserRequest.t}.
Context {VUpdateUser : Validator UpdateUserRequest.t}.
Context {VCreateRestaurant : Validator CreateRestaurantRequest.t}.
Context {VUpdateRestaurant : Validator UpdateRestaurantRequest.t}.

Ltac case_split :=
  repeat match goal with
  | |- context [match ?x with _ => _ end] =>
      lazymatch x with
      | context [match _ with _ => _ end] => fail
      | _ => destruct x eqn:?
      end
  end.

(** X16.  Reading and logging in never write: whatever the request, the
    principal and the outcome, the four read handlers and the login handler
    return the database they were given. *)
Theorem read_handlers_never_write
    (now : Z) (db : DB) (B : Type) (c : echo.Context B)
    (cl : echo.Context LoginUserRequest.t) :
  snd (UserHandler_GetUser now c db) = db
  /\ snd (RestaurantHandler_GetUserRestaurants now c db) = db
  /\ snd (RestaurantHandler_GetUserRestaurant now c db) = db
  /\ snd (AuthHandler_Login CheckPasswordHash SignedString jwtSecret now cl db)
     = db.
Proof.
  unfold UserHandler_GetUser, RestaurantHandler_GetUserRestaurants,
    RestaurantHandler_GetUserRestaurant, AuthHandler_Login.
  repeat split; case_split; reflexivity.
Qed.

Lemma CreateRestaurant_err (db db' : DB) (now : Z)
    (request : CreateRestaurantRequest.t) (userID : N) (e : error) :
  RestaurantService.CreateRestaurant db now request userID = (Err e, db') ->
  db' = db.
Proof.
  unfold RestaurantService.CreateRestaurant.
  destruct (UserRepository.GetByID db userID); intros [=]; auto.
Qed.

Lemma UpdateRestaurant_err (db db' : DB) (now : Z) (id : N)
    (request : UpdateRestaurantRequest.t) (e : error) :
  RestaurantService.UpdateRestaurant db now id request = (Err e, db') ->
  db' = db.
Proof.
  unfold RestaurantService.UpdateRestaurant.
  destruct (RestaurantRepository.GetByID db id); intros [=]; auto.
Qed.

Lemma DeleteRestaurant_err (db db' : DB) (now : Z) (id : N) (e : error) :
  RestaurantService.DeleteRestaurant db now id = (Some e, db') -> db' = db.
Proof.
  unfold RestaurantService.DeleteRestaurant.
  destruct (RestaurantRepository.GetByID db id); intros [=]; auto.
Qed.

Lemma DeleteUser_err (db db' : DB) (now : Z) (id : N) (e : error) :
  UserService.DeleteUser db now id = (Some e, db') -> db' = db.
Proof.
  unfold UserService.DeleteUser.
  destruct (UserRepository.GetByID db id); intros [=]; auto.
Qed.

Ltac settle_frame :=
  cbn [fst snd code permission_denied restaurant_not_found Recover];
  first
    [ reflexivity
    | intros Hbad; exfalso; revert Hbad;
      unfold is_error, StatusOK, StatusCreated;
      cbn [fst code]; lia
    | intros _; subst; reflexivity ].

(** X17.  A request that is answered with an error writes nothing: for each
    of the six handlers that can write, whatever the request and the
    principal, a status of 400 or more comes with the database unchanged. *)
Theorem error_answers_write_nothing
    (now : Z) (db : DB) (B : Type) (c : echo.Context B)
    (cg : echo.Context RegisterUserRequest.t)
    (cu : echo.Context UpdateUserRequest.t)
    (cc : echo.Context CreateRestaurantRequest.t)
    (cr : echo.Context UpdateRestaurantRequest.t) :
  let unchanged (out : HTTPResponse * DB) :=
    is_error (fst out) -> snd out = db in
  unchanged (AuthHandler_Register HashPassword now cg db)
  /\ unchanged (UserHandler_UpdateUser HashPassword now cu db)
  /\ unchanged (UserHandler_DeleteUser now c db)
  /\ unchanged (RestaurantHandler_CreateRestaurant now cc db)
  /\ unchanged (RestaurantHandler_UpdateRestaurant now cr db)
  /\ unchanged (RestaurantHandler_DeleteRestaurant now c db).
Proof.
  intros unchanged. subst unchanged. cbv beta.
  unfold AuthHandler_Register, UserHandler_UpdateUser, UserHandler_DeleteUser,
    RestaurantHandler_CreateRestaurant, RestaurantHandler_UpdateRestaurant,
    RestaurantHandler_DeleteRestaurant.
  repeat split; case_split;
    repeat match goal with
    | H : AuthService.Register _ _ _ _ = (Err _, _) |- _ =>
        apply Register_err in H
    | H : UserService.UpdateUser _ _ _ _ _ = (Err _, _) |- _ =>
        apply UpdateUser_err in H
    | H : UserService.DeleteUser _ _ _ = (Some _, _) |- _ =>
        apply DeleteUser_err in H
    | H : RestaurantService.CreateRestaurant _ _ _ _ = (Err _, _) |- _ =>
        apply CreateRestaurant_err in H
    | H : RestaurantService.UpdateRestaurant _ _ _ _ = (Err _, _) |- _ =>
        apply UpdateRestaurant_err in H
    | H : RestaurantService.DeleteRestaurant _ _ _ = (Some _, _) |- _ =>
        apply DeleteRestaurant_err in H
    end;
    settle_frame.
Qed.

End Frames.

(** ** The properties on the concrete deployment *)

Section MoreInstances.
Import utils http middleware Scenario Scenario2.
Local Open Scope Z_scope.

Lemma db0_live_emails_unique : live_emails_unique db0.
Proof.
  unfold live_emails_unique. cbn.
  repeat constructor; cbn; intuition discriminate.
Qed.

Lemma malformed_id_is_bad_request_witness :
  strconv.ParseUint32 "4294967296"
  = Err (errors_New "strconv.ParseUint: value out of range")
  /\ code (fst (UserHandler_DeleteUser 5000
                  (request_by alice "4294967296" no_body) db0))
     = StatusBadRequest.
Proof.
  split; [reflexivity|].
  destruct (malformed_id_is_bad_request (VUpdateUser := accept)
              (VUpdateRestaurant := accept) HashPassword 5000 db0
              (errors_New "strconv.ParseUint: value out of range") unit
              (request_by alice "4294967296" no_body)
              (request_by alice "4294967296" (Ok new_name))
              (request_by alice "4294967296" (Ok new_description))
              eq_refl eq_refl eq_refl) as (_ & _ & Hdel & _).
  rewrite Hdel. reflexivity.
Defined.

Lemma middleware_stops_malformed_credentials_witness :
  exists message,
    JWT Scenario.ParseUnverified Verify secret UserHandler_GetUser 5000
      (bearer "rsa") db0
    = (NewHTTPError StatusUnauthorized message, db0).
Proof.
  destruct (middleware_stops_malformed_credentials Scenario.ParseUnverified
              Verify secret 5000 unit (bearer "rsa") db0)
    as [message H].
  - right. right. exists "rsa". split; [reflexivity|]. right.
    eexists. exists "RS256". split; reflexivity.
  - exists message. apply H.
Defined.

Lemma middleware_agrees_with_ValidateToken_witness :
  AuthService.ValidateToken Scenario.ParseUnverified Verify secret 5000 "bob"
  = Ok (claims_of bob 90000)
  /\ code (fst (JWT Scenario.ParseUnverified Verify secret UserHandler_GetUser
                  5000 (bearer "bob") db0)) = StatusForbidden.
Proof.
  destruct (middleware_agrees_with_ValidateToken Scenario.ParseUnverified
              Verify secret 5000 "bob" unit UserHandler_GetUser (bearer "bob")
              db0 eq_refl)
    as [(e & Hv & _) | (token & alg & Hparse & _ & _ & _ & Hv & Hnext & _)].
  - vm_compute in Hv. discriminate Hv.
  - injection Hparse as <-. split; [exact Hv|]. rewrite Hnext. reflexivity.
Defined.

Lemma login_token_is_valid_for_24_hours_witness :
  let request := LoginUserRequest.mk "alice@example.com" "wonderland" in
  let token := "alice@example.com/user/your_secret_key"%string in
  AuthService.Login CheckPasswordHash SignedString secret db0 5000 request
  = Ok (alice, token)
  /\ AuthService.ValidateToken Scenario2.ParseUnverified Verify secret 91400 token
     = Ok (claims_of alice 91400)
  /\ AuthService.ValidateToken Scenario2.ParseUnverified Verify secret 91401 token
     = Err (errors_New "token is expired").
Proof.
  intros request token.
  assert (Hlogin : AuthService.Login CheckPasswordHash SignedString secret
                     db0 5000 request = Ok (alice, token)) by reflexivity.
  split; [exact Hlogin|].
  assert (Hlife := login_token_is_valid_for_24_hours CheckPasswordHash
                     Scenario2.ParseUnverified Verify SignedString secret
                     db0 5000 request alice token).
  cbv zeta in Hlife.
  assert (Hcodec : forall s,
            SignedString SigningMethodHS256
              (mkClaims (User.ID alice) (User.Email alice) (User.Role alice)
                 (5000 + 86400) 0 0) secret = Ok s ->
            exists t, Scenario2.ParseUnverified s = Some t
                      /\ Claims t = mkClaims (User.ID alice) (User.Email alice)
                                      (User.Role alice) (5000 + 86400) 0 0
                      /\ Method t = SigningMethodHS256
                      /\ Verify SigningMethodHS256 (Raw t) secret = true).
  { intros s [= <-]. eexists. repeat split. }
  split.
  - apply (Hlife ltac:(lia) Hlogin Hcodec 91400). lia.
  - apply (Hlife ltac:(lia) Hlogin Hcodec 91401). lia.
Defined.

Lemma register_then_login_witness :
  exists user db',
    AuthService.Register HashPassword empty_db 5000 carol = (Ok user, db')
    /\ AuthService.Login CheckPasswordHash SignedString secret db' 6000
         (LoginUserRequest.mk "carol@example.com" "password1")
       = Ok (user, "carol@example.com/user/your_secret_key"%string)
    /\ AuthService.Login CheckPasswordHash SignedString secret db' 6000
         (LoginUserRequest.mk "carol@example.com" "password2")
       = Err (errors_New "invalid email or password").
Proof.
  destruct (AuthService.Register HashPassword empty_db 5000 carol)
    as [r db'] eqn:Hreg.
  destruct r as [user|e]; [|vm_compute in Hreg; discriminate Hreg].
  exists user, db'. split; [reflexivity|].
  destruct (register_then_login HashPassword CheckPasswordHash SignedString
              secret empty_db db' 5000 6000 carol user Hreg) as [Hgood Hbad].
  - intros hash [= <-]. reflexivity.
  - vm_compute in Hreg. injection Hreg as <- <-. split.
    + exact Hgood.
    + apply Hbad. reflexivity.
Defined.

Lemma Register_keeps_live_emails_unique_witness :
  live_emails_unique db0
  /\ live_emails_unique (snd (AuthService.Register HashPassword db0 5000 carol)).
Proof.
  split; [exact db0_live_emails_unique|].
  apply Register_keeps_live_emails_unique. exact db0_live_emails_unique.
Defined.

Lemma deleted_user_cannot_log_in_witness :
  let db1 := snd (UserHandler_DeleteUser 5000 (request_by alice "1" no_body) db0) in
  AuthService.Login CheckPasswordHash SignedString secret db0 6000
    (LoginUserRequest.mk "alice@example.com" "wonderland")
  = Ok (alice, "alice@example.com/user/your_secret_key"%string)
  /\ AuthService.Login CheckPasswordHash SignedString secret db1 6000
       (LoginUserRequest.mk "alice@example.com" "wonderland")
     = Err (errors_New "invalid email or password").
Proof.
  intros db1. split; [reflexivity|].
  destruct (deleted_user_cannot_log_in CheckPasswordHash SignedString secret
              5000 6000 db0 1 alice (token_of alice) unit
              (request_by alice "1" no_body) eq_refl eq_refl
              (or_introl eq_refl) eq_refl db0_live_emails_unique)
    as (_ & _ & _ & _ & Hlogin).
  apply (Hlogin "wonderland"%string).
Defined.

Lemma email_change_revalidates_uniqueness_witness :
  UserHandler_UpdateUser (VUpdateUser := accept) HashPassword 5000
    (request_by alice "1" (Ok take_bobs_email)) db0
  = (JSON StatusInternalServerError
       (NewErrorResponse "Failed to update user" "email already in use"), db0).
Proof.
  destruct (email_change_revalidates_uniqueness HashPassword
              (VUpdateUser := accept) 5000 db0 1 alice bob (token_of alice)
              (request_by alice "1" (Ok take_bobs_email)) take_bobs_email
              eq_refl eq_refl eq_refl eq_refl (or_introl eq_refl)
              (or_introl eq_refl) eq_refl) as [_ H].
  - discriminate.
  - discriminate.
  - reflexivity.
  - discriminate.
  - exact H.
Defined.

Lemma non_admin_cannot_touch_other_users_witness :
  UserRepository.GetByID
    (snd (UserHandler_DeleteUser 5000 (request_by alice "2" no_body) db0)) 2
  = Ok bob
  /\ UserRepository.GetByID
       (snd (UserHandler_UpdateUser (VUpdateUser := accept) HashPassword 5000
               (request_by alice "2" (Ok new_name)) db0)) 2
     = Ok bob.
Proof.
  destruct (non_admin_cannot_touch_other_users HashPassword
              (VUpdateUser := accept) 5000 db0 (token_of alice)
              (request_by alice "2" (Ok new_name)) unit
              (request_by alice "2" no_body) 2 eq_refl eq_refl)
    as (Hupd & _ & Hdel & _).
  - discriminate.
  - discriminate.
  - split; [rewrite Hdel | rewrite Hupd]; reflexivity.
Defined.

Lemma non_admin_cannot_touch_foreign_restaurants_witness :
  RestaurantRepository.GetByID
    (snd (RestaurantHandler_DeleteRestaurant 5000
            (request_by alice "2" no_body) db0)) 2
  = Ok bistro
  /\ RestaurantRepository.GetByID
       (snd (RestaurantHandler_UpdateRestaurant (VUpdateRestaurant := accept)
               5000 (request_by alice "2" (Ok new_description)) db0)) 2
     = Ok bistro.
Proof.
  destruct (non_admin_cannot_touch_foreign_restaurants
              (VUpdateRestaurant := accept) 5000 db0 (token_of alice)
              (request_by alice "2" (Ok new_description)) unit
              (request_by alice "2" no_body) 2 bistro eq_refl eq_refl)
    as (Hupd & _ & Hdel & _).
  - discriminate.
  - reflexivity.
  - discriminate.
  - split; [exact Hdel | exact Hupd].
Defined.

Lemma restaurant_delete_is_soft_and_not_repeatable_witness :
  let out := RestaurantHandler_DeleteRestaurant 5000
               (request_by alice "1" no_body) db0 in
  In (Restaurant.set_DeletedAt (Some 5000) diner) (restaurants (snd out))
  /\ code (fst (RestaurantHandler_DeleteRestaurant 6000
                  (request_by alice "1" no_body) (snd out))) = StatusNotFound.
Proof.
  intros out.
  destruct (restaurant_delete_is_soft_and_not_repeatable 5000 6000 db0 1 diner
              (token_of alice) unit (request_by alice "1" no_body)
              eq_refl eq_refl eq_refl (or_introl eq_refl))
    as (_ & _ & _ & Hkept & _ & Hagain).
  split; [exact Hkept|]. subst out. rewrite Hagain. reflexivity.
Defined.

Lemma user_deletion_does_not_reach_restaurants_witness :
  let db1 := snd (UserHandler_DeleteUser 5000 (request_by alice "1" no_body) db0) in
  UserRepository.GetByID db1 1 = Err (errors_New "user not found")
  /\ code (fst (RestaurantHandler_UpdateRestaurant (VUpdateRestaurant := accept)
                  6000 (request_by alice "1" (Ok new_description)) db1))
     = StatusOK
  /\ code (fst (RestaurantHandler_GetUserRestaurants 6000
                  (echo.mkContext "" (params "1" "") no_body
                     (Some (token_of root))) db1))
     = StatusNotFound.
Proof.
  intros db1. split; [reflexivity|].
  destruct (user_deletion_does_not_reach_restaurants
              (VUpdateRestaurant := accept) 5000 6000 db0 1 alice
              (token_of alice) unit (request_by alice "1" no_body)
              (request_by alice "1" (Ok new_description))
              unit (request_by alice "1" no_body)
              unit (echo.mkContext "" (params "1" "") no_body
                      (Some (token_of root))) (token_of root)
              eq_refl eq_refl (or_introl eq_refl) eq_refl
              eq_refl eq_refl (or_intror eq_refl))
    as (_ & Hupd & _ & _ & _ & Hlist).
  split.
  - subst db1. rewrite Hupd. reflexivity.
  - subst db1. rewrite Hlist. reflexivity.
Defined.

Lemma created_restaurant_belongs_to_principal_witness :
  let out := RestaurantHandler_CreateRestaurant (VCreateRestaurant := accept)
               5000 (request_by alice "" (Ok italian)) db0 in
  fst out = JSON StatusCreated
              (NewSuccessResponse "Restaurant created successfully"
                 (restaurant_data (Restaurant_ToResponse trattoria)))
  /\ RestaurantService.GetRestaurantByID (snd out) 3 1 = Ok trattoria.
Proof.
  intros out.
  pose proof (created_restaurant_belongs_to_principal
                (VCreateRestaurant := accept) 5000 db0 (token_of alice)
                (request_by alice "" (Ok italian)) italian
                eq_refl eq_refl eq_refl) as H.
  cbv zeta in H.
  change (UserRepository.GetByID db0 (UserID (Claims (token_of alice))))
    with (@Ok User.t alice) in H.
  cbv iota in H. destruct H as (Hfst & _ & _ & _ & Hback).
  split; [exact Hfst | exact Hback].
Defined.

Lemma listing_shows_exactly_the_users_live_restaurants_witness :
  fst (RestaurantHandler_GetUserRestaurants 5000
         (echo.mkContext "" (params "1" "") no_body (Some (token_of alice)))
         db0)
  = JSON StatusOK
      (NewSuccessResponse "Restaurants retrieved successfully"
         (restaurants_data [Restaurant_ToResponse diner])).
Proof.
  destruct (listing_shows_exactly_the_users_live_restaurants 5000 db0 1 alice
              (token_of alice) unit
              (echo.mkContext "" (params "1" "") no_body (Some (token_of alice)))
              eq_refl eq_refl (or_introl eq_refl) eq_refl)
    as (listed & Hout & Hlisted & _).
  rewrite Hout. subst listed. reflexivity.
Defined.

End MoreInstances.
